(* ===================================================================== *)
(*  Theme toggle (script.js): a shallow embedding and its properties      *)
(* ===================================================================== *)
(*  The page state that script.js reads and writes is gathered in one
    record, [Page]: the five DOM elements the script touches (attributes
    and inline style of each), the origin's localStorage, the three
    signals the browser exposes to the script (the dark colour-scheme media
    query, document.hidden, document.readyState), the state of the
    MutationObserver (registered or not, undelivered records), the
    "themechange" events dispatched on window so far, and the pending
    setTimeout callbacks of the toggle animation.

    Every function of script.js is a computation in the state monad
    [Script] over [Page]; one browser task is the listener followed by the
    microtask checkpoint that delivers the observer's records.

    The click statistics listener has a state of its own, [ClickStats].

    Left out: console output (write-only diagnostics), the smooth-scroll
    listeners, the load-time switch of body.style.transition and showAlert;
    none of them writes the theme attribute, the store, the icons, the
    toggle or an event.
    getElementById is taken to find its elements and localStorage reads and
    writes are taken to succeed.                                           *)

From stdpp Require Import gmap strings list fin_maps.

(* --------------------------------------------------------------------- *)
(*  Data model                                                            *)
(* --------------------------------------------------------------------- *)

(** The two themes, and the strings that stand for them in the attribute
    and in the store. *)
Inductive ThemeState : Type := Light | Dark.

Definition themeName (t : ThemeState) : string :=
  match t with
  | Light => "light"
  | Dark => "dark"
  end.

Definition inverse (t : ThemeState) : ThemeState :=
  match t with
  | Light => Dark
  | Dark => Light
  end.

(** A DOM element, as far as the script uses one: named attributes and
    inline style properties. *)
Record Element : Type := mkElement {
  attributes : gmap string string;
  style : gmap string string
}.

Record Page : Type := mkPage {
  htmlElement : Element;               (* document.documentElement *)
  themeToggle : Element;               (* #themeToggle *)
  themeIcon : Element;                 (* #themeIcon *)
  themeIconDark : Element;             (* #themeIconDark *)
  body : Element;                      (* document.body *)
  localStorage : gmap string string;
  prefersDark : bool;                  (* matchMedia('(prefers-color-scheme: dark)').matches *)
  hidden : bool;                       (* document.hidden *)
  readyState : string;                 (* document.readyState when the script runs *)
  initOnDOMContentLoaded : bool;       (* init registered for DOMContentLoaded *)
  observing : bool;                    (* themeObserver.observe has been called *)
  records : list string;               (* attributeName of each undelivered MutationRecord *)
  dispatched : list (option string);   (* detail.theme of each themechange event, oldest first *)
  timeouts : nat                       (* pending animation callbacks *)
}.

(** Field updates. *)
Definition with_htmlElement (e : Element) (p : Page) : Page :=
  mkPage e (themeToggle p) (themeIcon p) (themeIconDark p) (body p)
    (localStorage p) (prefersDark p) (hidden p) (readyState p)
    (initOnDOMContentLoaded p) (observing p) (records p) (dispatched p) (timeouts p).

Definition with_themeToggle (e : Element) (p : Page) : Page :=
  mkPage (htmlElement p) e (themeIcon p) (themeIconDark p) (body p)
    (localStorage p) (prefersDark p) (hidden p) (readyState p)
    (initOnDOMContentLoaded p) (observing p) (records p) (dispatched p) (timeouts p).

Definition with_themeIcon (e : Element) (p : Page) : Page :=
  mkPage (htmlElement p) (themeToggle p) e (themeIconDark p) (body p)
    (localStorage p) (prefersDark p) (hidden p) (readyState p)
    (initOnDOMContentLoaded p) (observing p) (records p) (dispatched p) (timeouts p).

Definition with_themeIconDark (e : Element) (p : Page) : Page :=
  mkPage (htmlElement p) (themeToggle p) (themeIcon p) e (body p)
    (localStorage p) (prefersDark p) (hidden p) (readyState p)
    (initOnDOMContentLoaded p) (observing p) (records p) (dispatched p) (timeouts p).

Definition with_body (e : Element) (p : Page) : Page :=
  mkPage (htmlElement p) (themeToggle p) (themeIcon p) (themeIconDark p) e
    (localStorage p) (prefersDark p) (hidden p) (readyState p)
    (initOnDOMContentLoaded p) (observing p) (records p) (dispatched p) (timeouts p).

Definition with_localStorage (s : gmap string string) (p : Page) : Page :=
  mkPage (htmlElement p) (themeToggle p) (themeIcon p) (themeIconDark p) (body p)
    s (prefersDark p) (hidden p) (readyState p)
    (initOnDOMContentLoaded p) (observing p) (records p) (dispatched p) (timeouts p).

Definition with_prefersDark (b : bool) (p : Page) : Page :=
  mkPage (htmlElement p) (themeToggle p) (themeIcon p) (themeIconDark p) (body p)
    (localStorage p) b (hidden p) (readyState p)
    (initOnDOMContentLoaded p) (observing p) (records p) (dispatched p) (timeouts p).

Definition with_hidden (b : bool) (p : Page) : Page :=
  mkPage (htmlElement p) (themeToggle p) (themeIcon p) (themeIconDark p) (body p)
    (localStorage p) (prefersDark p) b (readyState p)
    (initOnDOMContentLoaded p) (observing p) (records p) (dispatched p) (timeouts p).

Definition with_readyState (s : string) (p : Page) : Page :=
  mkPage (htmlElement p) (themeToggle p) (themeIcon p) (themeIconDark p) (body p)
    (localStorage p) (prefersDark p) (hidden p) s
    (initOnDOMContentLoaded p) (observing p) (records p) (dispatched p) (timeouts p).

Definition with_initOnDOMContentLoaded (b : bool) (p : Page) : Page :=
  mkPage (htmlElement p) (themeToggle p) (themeIcon p) (themeIconDark p) (body p)
    (localStorage p) (prefersDark p) (hidden p) (readyState p)
    b (observing p) (records p) (dispatched p) (timeouts p).

Definition with_observing (b : bool) (p : Page) : Page :=
  mkPage (htmlElement p) (themeToggle p) (themeIcon p) (themeIconDark p) (body p)
    (localStorage p) (prefersDark p) (hidden p) (readyState p)
    (initOnDOMContentLoaded p) b (records p) (dispatched p) (timeouts p).

Definition with_records (r : list string) (p : Page) : Page :=
  mkPage (htmlElement p) (themeToggle p) (themeIcon p) (themeIconDark p) (body p)
    (localStorage p) (prefersDark p) (hidden p) (readyState p)
    (initOnDOMContentLoaded p) (observing p) r (dispatched p) (timeouts p).

Definition with_dispatched (d : list (option string)) (p : Page) : Page :=
  mkPage (htmlElement p) (themeToggle p) (themeIcon p) (themeIconDark p) (body p)
    (localStorage p) (prefersDark p) (hidden p) (readyState p)
    (initOnDOMContentLoaded p) (observing p) (records p) d (timeouts p).

Definition with_timeouts (n : nat) (p : Page) : Page :=
  mkPage (htmlElement p) (themeToggle p) (themeIcon p) (themeIconDark p) (body p)
    (localStorage p) (prefersDark p) (hidden p) (readyState p)
    (initOnDOMContentLoaded p) (observing p) (records p) (dispatched p) n.

(* --------------------------------------------------------------------- *)
(*  The state monad of the script                                         *)
(* --------------------------------------------------------------------- *)

Definition Script (A : Type) : Type := Page -> A * Page.

#[global] Instance Script_ret : MRet Script := fun A (a : A) (p : Page) => (a, p).

#[global] Instance Script_bind : MBind Script :=
  fun A B (k : A -> Script B) (m : Script A) (p : Page) => k (m p).1 (m p).2.

(** The page a computation leaves behind. *)
Definition exec {A : Type} (m : Script A) (p : Page) : Page := (m p).2.

(** The value a computation returns. *)
Definition eval {A : Type} (m : Script A) (p : Page) : A := (m p).1.

Definition skip : Script unit := mret tt.

(* --------------------------------------------------------------------- *)
(*  Browser primitives                                                    *)
(* --------------------------------------------------------------------- *)

Definition getAttribute (name : string) (e : Element) : option string :=
  attributes e !! name.

Definition setAttribute (name value : string) (e : Element) : Element :=
  mkElement (<[name := value]> (attributes e)) (style e).

Definition getStyle (prop : string) (e : Element) : option string :=
  style e !! prop.

Definition setStyle (prop value : string) (e : Element) : Element :=
  mkElement (attributes e) (<[prop := value]> (style e)).

(** themeObserver.observe(htmlElement, { attributes: true,
    attributeFilter: ['data-theme'] }). *)
Definition attributeFilter : list string := ["data-theme"].

(** htmlElement.getAttribute(name): null when the attribute is absent. *)
Definition htmlElement_getAttribute (name : string) : Script (option string) :=
  fun p => (getAttribute name (htmlElement p), p).

(** htmlElement.setAttribute(name, value). A registered observer gets one
    record for every call on a filtered attribute, whether or not the value
    is a new one. *)
Definition htmlElement_setAttribute (name value : string) : Script unit :=
  fun p =>
    let p' := with_htmlElement (setAttribute name value (htmlElement p)) p in
    (tt, if observing p && bool_decide (name ∈ attributeFilter)
         then with_records (records p ++ [name]) p'
         else p').

Definition themeToggle_setAttribute (name value : string) : Script unit :=
  fun p => (tt, with_themeToggle (setAttribute name value (themeToggle p)) p).

Definition themeToggle_setStyle (prop value : string) : Script unit :=
  fun p => (tt, with_themeToggle (setStyle prop value (themeToggle p)) p).

Definition themeIcon_setStyle (prop value : string) : Script unit :=
  fun p => (tt, with_themeIcon (setStyle prop value (themeIcon p)) p).

Definition themeIconDark_setStyle (prop value : string) : Script unit :=
  fun p => (tt, with_themeIconDark (setStyle prop value (themeIconDark p)) p).

Definition body_setStyle (prop value : string) : Script unit :=
  fun p => (tt, with_body (setStyle prop value (body p)) p).

(** localStorage.getItem(key): null when the key is absent. *)
Definition localStorage_getItem (key : string) : Script (option string) :=
  fun p => (localStorage p !! key, p).

Definition localStorage_setItem (key value : string) : Script unit :=
  fun p => (tt, with_localStorage (<[key := value]> (localStorage p)) p).

Definition matchMedia_matches : Script bool := fun p => (prefersDark p, p).

Definition document_hidden : Script bool := fun p => (hidden p, p).

Definition document_readyState : Script string := fun p => (readyState p, p).

(** setTimeout(() => { themeToggle.style.transform = 'scale(1)' }, 100). *)
Definition setTimeout_scaleBack : Script unit :=
  fun p => (tt, with_timeouts (S (timeouts p)) p).

(** window.dispatchEvent(new CustomEvent('themechange', { detail: { theme } })). *)
Definition window_dispatchEvent_themechange (theme : option string) : Script unit :=
  fun p => (tt, with_dispatched (dispatched p ++ [theme]) p).

Definition themeObserver_observe : Script unit :=
  fun p => (tt, with_observing true p).

Definition document_onDOMContentLoaded_init : Script unit :=
  fun p => (tt, with_initOnDOMContentLoaded true p).

(** JavaScript truthiness of a value that is a string or null. *)
Definition truthy (v : option string) : bool :=
  match v with
  | Some s => negb (bool_decide (s = ""))
  | None => false
  end.

(** String(v): the string that setAttribute and setItem store when they are
    handed a value that is a string or null. *)
Definition asString (v : option string) : string := default "null" v.

(* --------------------------------------------------------------------- *)
(*  script.js, function by function                                       *)
(* --------------------------------------------------------------------- *)

(** logThemeChange: two console lines; no effect on [Page]. *)
Definition logThemeChange (theme : string) : Script unit :=
  _ ← localStorage_getItem "theme"; skip.

Definition updateThemeIcons (theme : string) : Script unit :=
  if decide (theme = "dark") then
    themeIcon_setStyle "opacity" "0.5";;
    themeIconDark_setStyle "opacity" "1"
  else
    themeIcon_setStyle "opacity" "1";;
    themeIconDark_setStyle "opacity" "0.5".

Definition setTheme (theme : string) : Script unit :=
  htmlElement_setAttribute "data-theme" theme;;
  localStorage_setItem "theme" theme;;
  updateThemeIcons theme;;
  logThemeChange theme.

Definition animateToggle : Script unit :=
  themeToggle_setStyle "transform" "scale(0.95)";;
  setTimeout_scaleBack.

Definition toggleTheme : Script unit :=
  currentTheme ← htmlElement_getAttribute "data-theme";
  let newTheme := if decide (currentTheme = Some "dark") then "light" else "dark" in
  setTheme newTheme;;
  animateToggle.

Definition loadTheme : Script unit :=
  savedTheme ← localStorage_getItem "theme";
  if truthy savedTheme then
    setTheme (asString savedTheme)
  else
    dark ← matchMedia_matches;
    let defaultTheme := if dark : bool then "dark" else "light" in
    setTheme defaultTheme.

(** The keydown listener of the toggle: Enter and Space toggle, every other
    key is ignored. (e.preventDefault() acts on the browser's handling of
    the key, not on [Page].) *)
Definition onKeydown (key : string) : Script unit :=
  if bool_decide (key = "Enter") || bool_decide (key = " ") then toggleTheme
  else skip.

(** The change listener of the colour-scheme media query; [matches] is
    e.matches. *)
Definition onSchemeChange (matches : bool) : Script unit :=
  savedTheme ← localStorage_getItem "theme";
  if negb (truthy savedTheme) then
    let newTheme := if matches then "dark" else "light" in
    setTheme newTheme
  else skip.

Definition updateAriaLabel : Script unit :=
  currentTheme ← htmlElement_getAttribute "data-theme";
  let label := if decide (currentTheme = Some "dark")
               then "Switch to light mode" else "Switch to dark mode" in
  themeToggle_setAttribute "aria-label" label.

Definition init : Script unit :=
  loadTheme;;
  updateAriaLabel;;
  body_setStyle "visibility" "visible".

(** forEach over an array, first element first. *)
Fixpoint forEach {A : Type} (f : A -> Script unit) (l : list A) : Script unit :=
  match l with
  | [] => skip
  | a :: l' => f a;; forEach f l'
  end.

(** The callback handed to new MutationObserver; a mutation is given by its
    attributeName. *)
Definition themeObserver_callback (mutations : list string) : Script unit :=
  forEach (fun attributeName : string =>
    if decide (attributeName = "data-theme") then
      newTheme ← htmlElement_getAttribute "data-theme";
      updateAriaLabel;;
      window_dispatchEvent_themechange newTheme
    else skip) mutations.

Definition getCurrentTheme : Script (option string) :=
  htmlElement_getAttribute "data-theme".

Definition isDarkMode : Script bool :=
  current ← getCurrentTheme;
  mret (bool_decide (current = Some "dark")).

(** The visibilitychange listener. *)
Definition onVisibilityChange : Script unit :=
  isHidden ← document_hidden;
  if negb isHidden then
    savedTheme ← localStorage_getItem "theme";
    currentTheme ← getCurrentTheme;
    if truthy savedTheme && bool_decide (savedTheme ≠ currentTheme) then
      setTheme (asString savedTheme)
    else skip
  else skip.

(** The callback of animateToggle's timer. *)
Definition onTimeout : Script unit :=
  fun p =>
    match timeouts p with
    | O => (tt, p)
    | S n => themeToggle_setStyle "transform" "scale(1)" (with_timeouts n p)
    end.

(** The top level of script.js, in source order: the accessibility
    attributes of the toggle, init now or on DOMContentLoaded, then the
    registration of the observer. *)
Definition script : Script unit :=
  themeToggle_setAttribute "tabindex" "0";;
  themeToggle_setAttribute "aria-label" "Toggle dark mode";;
  state ← document_readyState;
  (if decide (state = "loading") then document_onDOMContentLoaded_init else init);;
  themeObserver_observe.

(* --------------------------------------------------------------------- *)
(*  Tasks                                                                 *)
(* --------------------------------------------------------------------- *)

(** When the script's stack empties, the observer's callback is run once
    with all the records queued so far. *)
Definition microtaskCheckpoint : Script unit :=
  fun p =>
    match records p with
    | [] => (tt, p)
    | mutations => themeObserver_callback mutations (with_records [] p)
    end.

(** What the browser can ask of the loaded page. *)
Inductive Task : Type :=
  | DOMContentLoaded
  | Click
  | Keydown (key : string)
  | SchemeChange (matches : bool)
  | VisibilityChange (nowHidden : bool)
  | TimerFired.

Definition listener (t : Task) : Script unit :=
  match t with
  | DOMContentLoaded =>
      fun p => if initOnDOMContentLoaded p
               then init (with_initOnDOMContentLoaded false p)
               else (tt, p)
  | Click => toggleTheme
  | Keydown key => onKeydown key
  | SchemeChange matches =>
      fun p => onSchemeChange matches (with_prefersDark matches p)
  | VisibilityChange nowHidden =>
      fun p => onVisibilityChange (with_hidden nowHidden p)
  | TimerFired => onTimeout
  end.

Definition runTask (t : Task) : Script unit :=
  listener t;; microtaskCheckpoint.

Definition runTasks (ts : list Task) : Script unit := forEach runTask ts.

(** Running the script file itself is a task too. *)
Definition scriptTask : Script unit := script;; microtaskCheckpoint.

(* --------------------------------------------------------------------- *)
(*  Observations and predicates                                           *)
(* --------------------------------------------------------------------- *)

(** The applied state: the data-theme attribute of the root element. *)
Definition appliedTheme (p : Page) : option string :=
  getAttribute "data-theme" (htmlElement p).

(** The persisted slot: the theme key of localStorage. *)
Definition persistedTheme (p : Page) : option string :=
  localStorage p !! "theme".

Definition iconOpacity (p : Page) : option string :=
  getStyle "opacity" (themeIcon p).

Definition iconDarkOpacity (p : Page) : option string :=
  getStyle "opacity" (themeIconDark p).

Definition ariaLabel (p : Page) : option string :=
  getAttribute "aria-label" (themeToggle p).

(** The label updateAriaLabel writes when the attribute reads [current]. *)
Definition labelFor (current : option string) : string :=
  if decide (current = Some "dark") then "Switch to light mode" else "Switch to dark mode".

(** How many of the records pass the test of the observer's callback. *)
Definition notifications (mutations : list string) : nat :=
  length (filter (λ name, name = "data-theme") mutations).

(** The observer is registered and has nothing left to deliver. *)
Definition settled (p : Page) : Prop := observing p = true ∧ records p = [].

(** Attribute and slot hold one and the same theme string. *)
Definition converged (p : Page) : Prop :=
  ∃ theme, appliedTheme p = Some theme ∧ persistedTheme p = Some theme.

(** Neither the attribute nor the slot differs between [p] and [q]. *)
Definition storesUntouched (p q : Page) : Prop :=
  appliedTheme q = appliedTheme p ∧ persistedTheme q = persistedTheme p.

(** The pages a session can be in: the script has run on a document that
    had no observer yet, then the browser runs tasks, and between tasks the
    store may be rewritten from outside (another tab, the user clearing
    site data). *)
Inductive reachable : Page → Prop :=
  | reach_script p0 :
      observing p0 = false → records p0 = [] → reachable (exec scriptTask p0)
  | reach_task t p : reachable p → reachable (exec (runTask t) p)
  | reach_storage store p : reachable p → reachable (with_localStorage store p).

(** A document as the browser hands it to a script at the end of the body:
    still loading, nothing registered, nothing queued, nothing dispatched,
    an empty store, no dark preference. *)
Definition document0 : Page :=
  mkPage (mkElement ∅ ∅) (mkElement ∅ ∅) (mkElement ∅ ∅) (mkElement ∅ ∅)
    (mkElement ∅ ∅) ∅ false false "loading" false false [] [] 0.

(** The same page with a value in the persisted slot. *)
Definition stored (v : string) (p : Page) : Page :=
  with_localStorage (<["theme" := v]> (localStorage p)) p.

(** The same page with the persisted slot removed. *)
Definition cleared (p : Page) : Page :=
  with_localStorage (delete "theme" (localStorage p)) p.

(** A store that holds a string which is no theme name. *)
Definition page_blue : Page := stored "blue" document0.

(** The document of a script that runs after parsing has finished
    (a deferred or injected script). *)
Definition page_complete : Page := with_readyState "complete" document0.

(** [document0] once the script and DOMContentLoaded have run. *)
Definition page_loaded : Page :=
  exec (runTask DOMContentLoaded) (exec scriptTask document0).

(** The loaded page after one click (dark), with "light" written to the
    store from outside. *)
Definition page_drifted : Page :=
  stored "light" (exec (runTask Click) page_loaded).

(* --------------------------------------------------------------------- *)
(*  Calls of the applier within one turn                                  *)
(* --------------------------------------------------------------------- *)

(** The two functions of script.js that write the theme: setTheme(theme)
    and toggleTheme(). *)
Inductive ApplierCall : Type :=
  | Apply (theme : string)
  | Toggle.

Definition call (c : ApplierCall) : Script unit :=
  match c with
  | Apply theme => setTheme theme
  | Toggle => toggleTheme
  end.

(* --------------------------------------------------------------------- *)
(*  Further observations and predicates                                   *)
(* --------------------------------------------------------------------- *)

Definition toggleTransform (p : Page) : option string :=
  getStyle "transform" (themeToggle p).

Definition bodyVisibility (p : Page) : option string :=
  getStyle "visibility" (body p).

(** The theme loadTheme settles on: the saved value when it is truthy, else
    the system preference. *)
Definition initialTheme (p : Page) : string :=
  if truthy (persistedTheme p) then asString (persistedTheme p)
  else if prefersDark p then "dark" else "light".

(** What one call of setTheme with [theme], made somewhere between [p] and
    [q], shows in [q]. *)
Definition calledSetTheme (theme : string) (p q : Page) : Prop :=
  appliedTheme q = Some theme ∧ persistedTheme q = Some theme ∧
  iconOpacity q = Some (if decide (theme = "dark") then "0.5" else "1") ∧
  iconDarkOpacity q = Some (if decide (theme = "dark") then "1" else "0.5") ∧
  observing q = observing p ∧
  records q = (if observing p then records p ++ ["data-theme"] else records p) ∧
  dispatched q = dispatched p.

(** Nothing that belongs to the theme differs between [p] and [q]. *)
Definition themeUntouched (p q : Page) : Prop :=
  appliedTheme q = appliedTheme p ∧ persistedTheme q = persistedTheme p ∧
  iconOpacity q = iconOpacity p ∧ iconDarkOpacity q = iconDarkOpacity p ∧
  ariaLabel q = ariaLabel p ∧
  observing q = observing p ∧ records q = records p ∧ dispatched q = dispatched p.

(** The icon of the applied theme is opaque and the other one dimmed. *)
Definition iconsConsistent (p : Page) : Prop :=
  iconOpacity p = Some (if decide (appliedTheme p = Some "dark") then "0.5" else "1") ∧
  iconDarkOpacity p = Some (if decide (appliedTheme p = Some "dark") then "1" else "0.5").

(** The label of the toggle names the theme a click would switch to. *)
Definition labelConsistent (p : Page) : Prop :=
  ariaLabel p = Some (labelFor (appliedTheme p)).

(** A payload that is the name of a theme. *)
Definition themeEvent (e : option string) : Prop := ∃ T, e = Some (themeName T).

(** Attribute and slot hold the name of one theme, and so does every event
    dispatched so far. *)
Definition wellThemed (p : Page) : Prop :=
  (∃ T, appliedTheme p = Some (themeName T) ∧ persistedTheme p = Some (themeName T)) ∧
  Forall themeEvent (dispatched p).

(* --------------------------------------------------------------------- *)
(*  The click statistics                                                  *)
(* --------------------------------------------------------------------- *)

(** let toggleCount = 0; let lastToggleTime = Date.now(). JavaScript holds
    both as doubles; on whole numbers between -2^53 and 2^53 its sums and
    differences are the exact ones as long as the result stays in that
    range, and that is where [Z] stands for them. *)
Record ClickStats : Type := mkClickStats {
  toggleCount : Z;
  lastToggleTime : Z
}.

(** A whole number a double holds exactly. *)
Definition safeInteger (z : Z) : Prop := (- 2 ^ 53 ≤ z ≤ 2 ^ 53)%Z.

(** A value of Date.now() on a clock that is not set before 1970. *)
Definition timeStamp (z : Z) : Prop := (0 ≤ z ≤ 2 ^ 53)%Z.

(** The second click listener of the toggle (it runs on every click, after
    toggleTheme; a keydown does not run it); [now] is what Date.now()
    returns. The pair returned holds the two numbers of the console line
    "Toggle #<count> - Time since last: <ms>ms". *)
Definition onClickStats (now : Z) (s : ClickStats) : (Z * Z) * ClickStats :=
  let count := (toggleCount s + 1)%Z in
  let timeSinceLastToggle := (now - lastToggleTime s)%Z in
  ((count, timeSinceLastToggle), mkClickStats count now).

(** The lines logged by a run of clicks at the given times. *)
Fixpoint clickLog (times : list Z) (s : ClickStats) : list (Z * Z) * ClickStats :=
  match times with
  | [] => ([], s)
  | now :: times' =>
      let '(line, s') := onClickStats now s in
      let '(lines, s'') := clickLog times' s' in
      (line :: lines, s'')
  end.

Definition sumZ (l : list Z) : Z := foldr Z.add 0%Z l.

(* ===================================================================== *)
(*  Properties                                                            *)
(* ===================================================================== *)

Ltac open_page p :=
  destruct p as [html toggle icon iconDark bd store dark hid ready onDCL obs recs evs tmo].

(* --------------------------------------------------------------------- *)
(*  JavaScript truthiness                                                 *)
(* --------------------------------------------------------------------- *)

Lemma truthy_Some (s : string) : s ≠ "" → truthy (Some s) = true.
Proof. intros Hs. unfold truthy. by rewrite bool_decide_eq_false_2. Qed.

Lemma truthy_true (v : option string) : truthy v = true ↔ ∃ s, v = Some s ∧ s ≠ "".
Proof.
  split.
  - destruct v as [s|]; [|done]. unfold truthy. intros H.
    exists s. split; [done|]. intros ->. done.
  - intros (s & -> & Hs). by apply truthy_Some.
Qed.

Lemma truthy_false (v : option string) : truthy v = false ↔ v = None ∨ v = Some "".
Proof.
  split.
  - destruct v as [s|]; [|by left]. unfold truthy. intros H. right.
    apply negb_false_iff, bool_decide_eq_true_1 in H. by subst.
  - intros [-> | ->]; done.
Qed.

(* --------------------------------------------------------------------- *)
(*  setTheme                                                              *)
(* --------------------------------------------------------------------- *)

Lemma seq_exec {A : Type} (m : Script A) (k : Script unit) (p : Page) :
  exec (m;; k) p = exec k (exec m p).
Proof. reflexivity. Qed.

Lemma filter_data_theme : bool_decide ("data-theme" ∈ attributeFilter) = true.
Proof. apply bool_decide_eq_true_2. unfold attributeFilter. set_solver. Qed.

Section Applier.
Variables (theme : string) (p : Page).

(** The page setTheme leaves, field by field. *)
Lemma setTheme_exec :
  exec (setTheme theme) p =
  mkPage (setAttribute "data-theme" theme (htmlElement p))
    (themeToggle p)
    (setStyle "opacity" (if decide (theme = "dark") then "0.5" else "1") (themeIcon p))
    (setStyle "opacity" (if decide (theme = "dark") then "1" else "0.5") (themeIconDark p))
    (body p)
    (<["theme" := theme]> (localStorage p))
    (prefersDark p) (hidden p) (readyState p) (initOnDOMContentLoaded p)
    (observing p)
    (if observing p then records p ++ ["data-theme"] else records p)
    (dispatched p) (timeouts p).
Proof.
  unfold setTheme, exec, updateThemeIcons, mbind, Script_bind, htmlElement_setAttribute.
  rewrite filter_data_theme, andb_true_r.
  open_page p. destruct obs, (decide (theme = "dark")); reflexivity.
Qed.

Lemma setTheme_applied : appliedTheme (exec (setTheme theme) p) = Some theme.
Proof.
  rewrite setTheme_exec. unfold appliedTheme, getAttribute, setAttribute. cbn.
  apply lookup_insert_eq.
Qed.

Lemma setTheme_persisted : persistedTheme (exec (setTheme theme) p) = Some theme.
Proof. rewrite setTheme_exec. unfold persistedTheme. cbn. apply lookup_insert_eq. Qed.

Lemma setTheme_iconOpacity :
  iconOpacity (exec (setTheme theme) p)
  = Some (if decide (theme = "dark") then "0.5" else "1").
Proof.
  rewrite setTheme_exec. unfold iconOpacity, getStyle, setStyle. cbn.
  apply lookup_insert_eq.
Qed.

Lemma setTheme_iconDarkOpacity :
  iconDarkOpacity (exec (setTheme theme) p)
  = Some (if decide (theme = "dark") then "1" else "0.5").
Proof.
  rewrite setTheme_exec. unfold iconDarkOpacity, getStyle, setStyle. cbn.
  apply lookup_insert_eq.
Qed.

Lemma setTheme_observing : observing (exec (setTheme theme) p) = observing p.
Proof. by rewrite setTheme_exec. Qed.

Lemma setTheme_dispatched : dispatched (exec (setTheme theme) p) = dispatched p.
Proof. by rewrite setTheme_exec. Qed.

Lemma setTheme_records :
  observing p = true → records (exec (setTheme theme) p) = records p ++ ["data-theme"].
Proof. intros Hobs. rewrite setTheme_exec. cbn. by rewrite Hobs. Qed.

Lemma setTheme_records_unobserved :
  observing p = false → records (exec (setTheme theme) p) = records p.
Proof. intros Hobs. rewrite setTheme_exec. cbn. by rewrite Hobs. Qed.

Lemma setTheme_converged : converged (exec (setTheme theme) p).
Proof. exists theme. split; [apply setTheme_applied | apply setTheme_persisted]. Qed.
End Applier.

(** C3: setTheme is idempotent on what it is there to set. Calling it twice
    with the same theme leaves the data-theme attribute, the persisted slot
    and the opacity of both icons as one call leaves them; indeed the whole
    root element, the whole store and both icon elements are the same. *)
Theorem setTheme_idempotent (theme : string) (p : Page) :
  let once := exec (setTheme theme) p in
  let twice := exec (setTheme theme) once in
  appliedTheme twice = appliedTheme once ∧
  persistedTheme twice = persistedTheme once ∧
  iconOpacity twice = iconOpacity once ∧
  iconDarkOpacity twice = iconDarkOpacity once ∧
  htmlElement twice = htmlElement once ∧
  localStorage twice = localStorage once ∧
  themeIcon twice = themeIcon once ∧
  themeIconDark twice = themeIconDark once.
Proof.
  cbn zeta.
  rewrite !setTheme_applied, !setTheme_persisted, !setTheme_iconOpacity,
    !setTheme_iconDarkOpacity.
  rewrite (setTheme_exec theme (exec _ _)), setTheme_exec.
  unfold setStyle, setAttribute. cbn.
  rewrite !insert_insert_eq. done.
Qed.

(** Not every part of the page is left as one call leaves it: an observed
    page holds one record per call. *)
Example setTheme_twice_two_records :
  records (exec (setTheme "dark") page_loaded) = ["data-theme"] ∧
  records (exec (setTheme "dark") (exec (setTheme "dark") page_loaded))
  = ["data-theme"; "data-theme"].
Proof. vm_compute. done. Qed.

(* --------------------------------------------------------------------- *)
(*  loadTheme                                                             *)
(* --------------------------------------------------------------------- *)

Lemma loadTheme_exec (p : Page) :
  exec loadTheme p =
  if truthy (persistedTheme p) then exec (setTheme (asString (persistedTheme p))) p
  else exec (setTheme (if prefersDark p then "dark" else "light")) p.
Proof.
  unfold loadTheme, exec, mbind, Script_bind, localStorage_getItem, persistedTheme. cbn.
  destruct (truthy (localStorage p !! "theme")); reflexivity.
Qed.

Lemma loadTheme_converged (p : Page) : converged (exec loadTheme p).
Proof. rewrite loadTheme_exec. destruct (truthy _); apply setTheme_converged. Qed.

Lemma loadTheme_observing (p : Page) : observing (exec loadTheme p) = observing p.
Proof. rewrite loadTheme_exec. destruct (truthy _); apply setTheme_observing. Qed.

(** C1: precedence in loadTheme. A slot holding "dark" makes the initial
    theme Dark although the system reports no dark preference; with no slot
    the initial theme is Dark when the system prefers dark and Light when it
    does not. *)
Theorem loadTheme_precedence (p : Page) :
  (persistedTheme p = Some "dark" → prefersDark p = false →
     appliedTheme (exec loadTheme p) = Some (themeName Dark)) ∧
  (persistedTheme p = None → prefersDark p = true →
     appliedTheme (exec loadTheme p) = Some (themeName Dark)) ∧
  (persistedTheme p = None → prefersDark p = false →
     appliedTheme (exec loadTheme p) = Some (themeName Light)).
Proof.
  rewrite loadTheme_exec.
  repeat split; intros Hsaved Hos; rewrite Hsaved, ?Hos; cbn; apply setTheme_applied.
Qed.

Lemma loadTheme_precedence_witness :
  (persistedTheme (stored "dark" document0) = Some "dark" ∧
   prefersDark (stored "dark" document0) = false ∧
   appliedTheme (exec loadTheme (stored "dark" document0)) = Some "dark") ∧
  (persistedTheme (with_prefersDark true document0) = None ∧
   prefersDark (with_prefersDark true document0) = true ∧
   appliedTheme (exec loadTheme (with_prefersDark true document0)) = Some "dark") ∧
  (persistedTheme document0 = None ∧
   prefersDark document0 = false ∧
   appliedTheme (exec loadTheme document0) = Some "light").
Proof.
  split; [|split].
  - split; [reflexivity|]. split; [reflexivity|].
    apply (proj1 (loadTheme_precedence (stored "dark" document0))); reflexivity.
  - split; [reflexivity|]. split; [reflexivity|].
    apply (proj1 (proj2 (loadTheme_precedence (with_prefersDark true document0))));
      reflexivity.
  - split; [reflexivity|]. split; [reflexivity|].
    apply (proj2 (proj2 (loadTheme_precedence document0))); reflexivity.
Defined.

(** C2, as claimed, fails: with "blue" in the slot and no dark preference,
    loadTheme applies "blue", where an absent slot gives "light". *)
Lemma loadTheme_malformed_counterexample :
  persistedTheme page_blue = Some "blue" ∧
  prefersDark page_blue = false ∧
  appliedTheme (exec loadTheme page_blue) = Some "blue" ∧
  appliedTheme (exec loadTheme (cleared page_blue)) = Some "light".
Proof. vm_compute. done. Qed.

(** C2, amended: loadTheme applies whatever non-empty string the slot holds,
    a theme name or not: attribute and slot both hold it afterwards and the
    system preference is not consulted. Only an absent slot, or one holding
    the empty string, falls back to the system preference. *)
Theorem loadTheme_saved_wins (p : Page) :
  (∀ s, persistedTheme p = Some s → s ≠ "" →
     appliedTheme (exec loadTheme p) = Some s ∧
     persistedTheme (exec loadTheme p) = Some s) ∧
  (persistedTheme p = None ∨ persistedTheme p = Some "" →
     appliedTheme (exec loadTheme p) = Some (if prefersDark p then "dark" else "light")).
Proof.
  rewrite loadTheme_exec. split.
  - intros s Hsaved Hs. rewrite Hsaved, (truthy_Some s Hs). cbn.
    split; [apply setTheme_applied | apply setTheme_persisted].
  - intros Hempty. apply truthy_false in Hempty. rewrite Hempty.
    apply setTheme_applied.
Qed.

Lemma loadTheme_saved_wins_witness :
  (persistedTheme page_blue = Some "blue" ∧ "blue" ≠ "" ∧
   appliedTheme (exec loadTheme page_blue) = Some "blue" ∧
   persistedTheme (exec loadTheme page_blue) = Some "blue") ∧
  (persistedTheme (stored "" document0) = Some "" ∧
   appliedTheme (exec loadTheme (stored "" document0)) = Some "light").
Proof.
  split.
  - split; [reflexivity|]. split; [discriminate|].
    apply (proj1 (loadTheme_saved_wins page_blue) "blue"); [reflexivity | discriminate].
  - split; [reflexivity|].
    apply (proj2 (loadTheme_saved_wins (stored "" document0))). right. reflexivity.
Defined.

(* --------------------------------------------------------------------- *)
(*  toggleTheme                                                           *)
(* --------------------------------------------------------------------- *)

Lemma toggleTheme_exec (p : Page) :
  exec toggleTheme p =
  exec animateToggle
    (exec (setTheme (if decide (appliedTheme p = Some "dark") then "light" else "dark")) p).
Proof. reflexivity. Qed.

Lemma toggleTheme_applied (p : Page) :
  appliedTheme (exec toggleTheme p) =
  Some (if decide (appliedTheme p = Some "dark") then "light" else "dark").
Proof.
  rewrite toggleTheme_exec.
  change (appliedTheme (exec animateToggle ?q)) with (appliedTheme q).
  apply setTheme_applied.
Qed.

Lemma toggleTheme_persisted (p : Page) :
  persistedTheme (exec toggleTheme p) =
  Some (if decide (appliedTheme p = Some "dark") then "light" else "dark").
Proof.
  rewrite toggleTheme_exec.
  change (persistedTheme (exec animateToggle ?q)) with (persistedTheme q).
  apply setTheme_persisted.
Qed.

Lemma toggleTheme_observing (p : Page) : observing (exec toggleTheme p) = observing p.
Proof. rewrite toggleTheme_exec. apply setTheme_observing. Qed.

Lemma toggleTheme_converged (p : Page) : converged (exec toggleTheme p).
Proof. eexists. split; [apply toggleTheme_applied | apply toggleTheme_persisted]. Qed.

(** C4: toggleTheme inverts. When the attribute holds the name of theme T,
    one call leaves the name of inverse(T) there and a second call brings
    back the name of T. *)
Theorem toggleTheme_inverse (T : ThemeState) (p : Page) :
  appliedTheme p = Some (themeName T) →
  appliedTheme (exec toggleTheme p) = Some (themeName (inverse T)) ∧
  appliedTheme (exec toggleTheme (exec toggleTheme p)) = Some (themeName T).
Proof.
  intros Hcur. rewrite !toggleTheme_applied, Hcur. destruct T; done.
Qed.

Lemma toggleTheme_inverse_witness :
  appliedTheme page_loaded = Some (themeName Light) ∧
  appliedTheme (exec toggleTheme page_loaded) = Some "dark" ∧
  appliedTheme (exec toggleTheme (exec toggleTheme page_loaded)) = Some "light".
Proof.
  split; [reflexivity|].
  apply (toggleTheme_inverse Light page_loaded). reflexivity.
Defined.

(** C10: whenever the attribute is anything but "dark" (absent, "light" or
    no theme name at all), one call of toggleTheme makes it "dark"; so after
    one call the attribute is "light" or "dark" whatever it was before. *)
Theorem toggleTheme_from_non_dark (p : Page) :
  (appliedTheme p ≠ Some "dark" → appliedTheme (exec toggleTheme p) = Some "dark") ∧
  (appliedTheme (exec toggleTheme p) = Some "light" ∨
   appliedTheme (exec toggleTheme p) = Some "dark").
Proof.
  rewrite toggleTheme_applied. split.
  - intros Hnd. by rewrite decide_False.
  - destruct (decide _); [by left | by right].
Qed.

Lemma toggleTheme_from_non_dark_witness :
  (appliedTheme document0 ≠ Some "dark" ∧
   appliedTheme (exec toggleTheme document0) = Some "dark") ∧
  (appliedTheme (exec loadTheme page_blue) ≠ Some "dark" ∧
   appliedTheme (exec toggleTheme (exec loadTheme page_blue)) = Some "dark").
Proof.
  split.
  - split; [discriminate|].
    apply (proj1 (toggleTheme_from_non_dark document0)). discriminate.
  - split; [discriminate|].
    apply (proj1 (toggleTheme_from_non_dark (exec loadTheme page_blue))). discriminate.
Defined.

(* --------------------------------------------------------------------- *)
(*  The observer and the microtask checkpoint                             *)
(* --------------------------------------------------------------------- *)

Lemma updateAriaLabel_exec (p : Page) :
  exec updateAriaLabel p =
  with_themeToggle (setAttribute "aria-label" (labelFor (appliedTheme p)) (themeToggle p)) p.
Proof. reflexivity. Qed.

Lemma callback_cons (name : string) (mutations : list string) (p : Page) :
  exec (themeObserver_callback (name :: mutations)) p =
  exec (themeObserver_callback mutations)
    (if decide (name = "data-theme")
     then exec (window_dispatchEvent_themechange (appliedTheme p)) (exec updateAriaLabel p)
     else p).
Proof.
  unfold themeObserver_callback, exec. cbn. unfold mbind, Script_bind.
  destruct (decide (name = "data-theme")); reflexivity.
Qed.

Lemma notifications_snoc (mutations : list string) :
  notifications (mutations ++ ["data-theme"]) = S (notifications mutations).
Proof.
  unfold notifications. rewrite filter_app, length_app.
  change (filter _ ["data-theme"]) with ["data-theme"]. cbn. lia.
Qed.

(** The callback in closed form: with no data-theme record it does nothing;
    otherwise it writes the label once and for all and dispatches one event
    per record, each carrying the attribute as it is when the callback
    runs. *)
Lemma callback_exec (mutations : list string) : ∀ p,
  exec (themeObserver_callback mutations) p =
  match notifications mutations with
  | O => p
  | S n =>
      with_dispatched (dispatched p ++ replicate (S n) (appliedTheme p))
        (with_themeToggle
           (setAttribute "aria-label" (labelFor (appliedTheme p)) (themeToggle p)) p)
  end.
Proof.
  induction mutations as [|name mutations IH]; intros p.
  - reflexivity.
  - rewrite callback_cons, IH. unfold notifications. rewrite filter_cons.
    destruct (decide (name = "data-theme")) as [->|Hne]; [|reflexivity].
    change (length (_ :: ?l)) with (S (length l)).
    fold (notifications mutations).
    destruct (notifications mutations) as [|n]; [reflexivity|].
    open_page p.
    unfold exec, appliedTheme, with_dispatched, with_themeToggle, setAttribute,
      updateAriaLabel, window_dispatchEvent_themechange, htmlElement_getAttribute,
      themeToggle_setAttribute, mbind, Script_bind. cbn.
    rewrite insert_insert_eq, <- app_assoc. reflexivity.
Qed.

Lemma microtaskCheckpoint_exec (p : Page) :
  exec microtaskCheckpoint p =
  exec (themeObserver_callback (records p)) (with_records [] p).
Proof. open_page p. destruct recs; reflexivity. Qed.

Lemma microtaskCheckpoint_settled (p : Page) :
  records p = [] → exec microtaskCheckpoint p = p.
Proof. intros Hrec. unfold exec, microtaskCheckpoint. by rewrite Hrec. Qed.

Section Checkpoint.
Variable p : Page.

Lemma microtaskCheckpoint_applied :
  appliedTheme (exec microtaskCheckpoint p) = appliedTheme p.
Proof.
  rewrite microtaskCheckpoint_exec, callback_exec.
  destruct (notifications _); reflexivity.
Qed.

Lemma microtaskCheckpoint_persisted :
  persistedTheme (exec microtaskCheckpoint p) = persistedTheme p.
Proof.
  rewrite microtaskCheckpoint_exec, callback_exec.
  destruct (notifications _); reflexivity.
Qed.

Lemma microtaskCheckpoint_records : records (exec microtaskCheckpoint p) = [].
Proof.
  rewrite microtaskCheckpoint_exec, callback_exec.
  destruct (notifications _); reflexivity.
Qed.

Lemma microtaskCheckpoint_observing :
  observing (exec microtaskCheckpoint p) = observing p.
Proof.
  rewrite microtaskCheckpoint_exec, callback_exec.
  destruct (notifications _); reflexivity.
Qed.

Lemma microtaskCheckpoint_dispatched :
  dispatched (exec microtaskCheckpoint p) =
  dispatched p ++ replicate (notifications (records p)) (appliedTheme p).
Proof.
  rewrite microtaskCheckpoint_exec, callback_exec.
  destruct (notifications _); [|reflexivity].
  cbn. by rewrite app_nil_r.
Qed.

Lemma microtaskCheckpoint_stores : storesUntouched p (exec microtaskCheckpoint p).
Proof.
  split; [apply microtaskCheckpoint_applied | apply microtaskCheckpoint_persisted].
Qed.
End Checkpoint.

(** C6, as claimed, fails: a script that runs when the document is no
    longer loading calls init at once, before the observer is registered.
    That call of setTheme takes the attribute from absent to "light", and no
    themechange event is dispatched or left to be dispatched. *)
Lemma script_unobserved_counterexample :
  appliedTheme page_complete = None ∧
  appliedTheme (exec scriptTask page_complete) = Some "light" ∧
  dispatched (exec scriptTask page_complete) = [] ∧
  records (exec scriptTask page_complete) = [] ∧
  dispatched (exec (setTheme "light";; microtaskCheckpoint) page_complete) = [].
Proof. vm_compute. done. Qed.

Lemma forEach_nil {A : Type} (f : A → Script unit) (p : Page) :
  exec (forEach f []) p = p.
Proof. reflexivity. Qed.

Lemma forEach_cons {A : Type} (f : A → Script unit) (a : A) (l : list A) (p : Page) :
  exec (forEach f (a :: l)) p = exec (forEach f l) (exec (f a) p).
Proof. reflexivity. Qed.

(** On an observed page a call of setTheme or toggleTheme queues one record
    and dispatches nothing itself. *)
Lemma call_observed (c : ApplierCall) (p : Page) :
  observing p = true →
  observing (exec (call c) p) = true ∧
  notifications (records (exec (call c) p)) = S (notifications (records p)) ∧
  dispatched (exec (call c) p) = dispatched p.
Proof.
  intros Hobs. destruct c as [theme|]; cbn [call].
  - rewrite setTheme_observing, setTheme_records, setTheme_dispatched, notifications_snoc
      by done. done.
  - rewrite toggleTheme_exec.
    change (observing (exec animateToggle ?q)) with (observing q).
    change (records (exec animateToggle ?q)) with (records q).
    change (dispatched (exec animateToggle ?q)) with (dispatched q).
    rewrite setTheme_observing, setTheme_records, setTheme_dispatched, notifications_snoc
      by done. done.
Qed.

Lemma calls_observed (later : list ApplierCall) : ∀ p,
  observing p = true →
  observing (exec (forEach call later) p) = true ∧
  notifications (records (exec (forEach call later) p))
  = notifications (records p) + length later ∧
  dispatched (exec (forEach call later) p) = dispatched p.
Proof.
  induction later as [|c later IH]; intros p Hobs.
  - rewrite forEach_nil. cbn [length]. by rewrite Nat.add_0_r.
  - rewrite forEach_cons.
    destruct (call_observed c p Hobs) as (Hobs1 & Hn1 & Hd1).
    destruct (IH _ Hobs1) as (Hobs2 & Hn2 & Hd2).
    rewrite Hn2, Hn1, Hd2, Hd1. cbn [length]. split; [done|]. split; [lia | done].
Qed.

(** C6, amended: every call of setTheme made while the observer is
    registered, whatever calls of setTheme or toggleTheme follow it in the
    same turn, adds exactly one themechange event to what the next
    checkpoint dispatches, whether or not the value differs from the old
    one. Every event of that checkpoint carries the value the attribute
    holds when the checkpoint runs. That value is the one the call applied
    when no further call precedes the checkpoint, as in every listener of
    the page; when in addition nothing was waiting for delivery, the event
    is the only one dispatched. *)
Theorem setTheme_notifies (theme : string) (later : list ApplierCall) (p : Page) :
  observing p = true →
  let q := exec (setTheme theme;; forEach call later;; microtaskCheckpoint) p in
  let without := exec (forEach call later;; microtaskCheckpoint) p in
  length (dispatched q) = S (length (dispatched without)) ∧
  appliedTheme q = appliedTheme (exec (setTheme theme;; forEach call later) p) ∧
  dispatched q =
    dispatched p ++
    replicate (S (notifications (records p) + length later)) (appliedTheme q) ∧
  (later = [] →
     appliedTheme q = Some theme ∧
     last (dispatched q) = Some (Some theme) ∧
     (records p = [] → dispatched q = dispatched p ++ [Some theme])).
Proof.
  intros Hobs q without. subst q without.
  rewrite !seq_exec.
  destruct (call_observed (Apply theme) p Hobs) as (Hobs1 & Hn1 & Hd1). cbn [call] in *.
  destruct (calls_observed later _ Hobs1) as (_ & Hn2 & Hd2).
  destruct (calls_observed later _ Hobs) as (_ & Hn0 & Hd0).
  rewrite microtaskCheckpoint_applied, !microtaskCheckpoint_dispatched.
  rewrite Hn2, Hn1, Hd2, Hd1, Hn0, Hd0.
  split; [|split; [|split]].
  - rewrite !length_app, !length_replicate. lia.
  - reflexivity.
  - reflexivity.
  - intros ->. rewrite forEach_nil, setTheme_applied, Nat.add_0_r.
    split; [done|]. split.
    + rewrite replicate_S_end, app_assoc. apply last_snoc.
    + intros ->. reflexivity.
Qed.

Lemma setTheme_notifies_witness :
  observing page_loaded = true ∧ records page_loaded = [] ∧
  appliedTheme page_loaded = Some "light" ∧
  appliedTheme (exec (setTheme "dark";; microtaskCheckpoint) page_loaded) = Some "dark" ∧
  dispatched (exec (setTheme "dark";; microtaskCheckpoint) page_loaded)
  = dispatched page_loaded ++ [Some "dark"] ∧
  dispatched (exec (setTheme "dark";; forEach call [Apply "light"; Toggle];;
                    microtaskCheckpoint) page_loaded)
  = dispatched page_loaded ++ [Some "dark"; Some "dark"; Some "dark"].
Proof.
  split; [reflexivity|]. split; [reflexivity|]. split; [reflexivity|].
  destruct (setTheme_notifies "dark" [] page_loaded eq_refl) as (_ & _ & _ & Hlast).
  destruct (Hlast eq_refl) as (Happlied & _ & Hevents).
  split; [exact Happlied|]. split; [apply Hevents; reflexivity|].
  destruct (setTheme_notifies "dark" [Apply "light"; Toggle] page_loaded eq_refl)
    as (_ & _ & Hall & _).
  rewrite Hall. vm_compute. reflexivity.
Defined.

(** The payload is read when the callback runs, not when the record is
    queued: two calls in one task yield two events, both with the value the
    second call left. *)
Example two_calls_one_checkpoint :
  dispatched (exec (setTheme "dark";; setTheme "light";; microtaskCheckpoint) page_loaded)
  = dispatched page_loaded ++ [Some "light"; Some "light"].
Proof. vm_compute. reflexivity. Qed.

(** Without an observer a call queues nothing and dispatches nothing. *)
Lemma setTheme_unobserved (theme : string) (p : Page) :
  observing p = false → records p = [] →
  dispatched (exec (setTheme theme;; microtaskCheckpoint) p) = dispatched p.
Proof.
  intros Hobs Hrec. rewrite seq_exec, microtaskCheckpoint_dispatched.
  rewrite setTheme_records_unobserved, Hrec, setTheme_dispatched by done.
  cbn. apply app_nil_r.
Qed.

(** C9: the display state is decided by a comparison with "dark" alone. For
    every string other than "dark" (so for "light", the empty string and
    any string that is no theme name) setTheme leaves the light icon at
    opacity "1" and the dark icon at "0.5", and the label derived from the
    attribute it wrote, by updateAriaLabel directly or through the observer,
    is "Switch to dark mode". The string "dark" gives the opposite opacities
    and "Switch to light mode". *)
Theorem display_state_of_setTheme (s : string) (p : Page) :
  (s ≠ "dark" →
     iconOpacity (exec (setTheme s) p) = Some "1" ∧
     iconDarkOpacity (exec (setTheme s) p) = Some "0.5" ∧
     ariaLabel (exec updateAriaLabel (exec (setTheme s) p)) = Some "Switch to dark mode" ∧
     (observing p = true →
        ariaLabel (exec (setTheme s;; microtaskCheckpoint) p) = Some "Switch to dark mode")) ∧
  (s = "dark" →
     iconOpacity (exec (setTheme s) p) = Some "0.5" ∧
     iconDarkOpacity (exec (setTheme s) p) = Some "1" ∧
     ariaLabel (exec updateAriaLabel (exec (setTheme s) p)) = Some "Switch to light mode" ∧
     (observing p = true →
        ariaLabel (exec (setTheme s;; microtaskCheckpoint) p) = Some "Switch to light mode")).
Proof.
  pose proof (setTheme_iconOpacity s p) as Hlight.
  pose proof (setTheme_iconDarkOpacity s p) as Hdark.
  assert (Hlabel : ariaLabel (exec updateAriaLabel (exec (setTheme s) p))
                   = Some (labelFor (Some s))).
  { rewrite updateAriaLabel_exec, setTheme_applied.
    unfold ariaLabel, getAttribute, setAttribute. cbn. apply lookup_insert_eq. }
  assert (Hobserved : observing p = true →
            ariaLabel (exec (setTheme s;; microtaskCheckpoint) p) = Some (labelFor (Some s))).
  { intros Hobs. rewrite seq_exec, microtaskCheckpoint_exec, callback_exec.
    rewrite setTheme_records, notifications_snoc by done.
    change (appliedTheme (with_records [] ?q)) with (appliedTheme q).
    rewrite setTheme_applied.
    unfold ariaLabel, getAttribute, setAttribute. cbn. apply lookup_insert_eq. }
  unfold labelFor in *.
  split; intros Hs.
  - rewrite decide_False in Hlight, Hdark by done.
    rewrite decide_False in Hlabel, Hobserved by congruence. done.
  - rewrite decide_True in Hlight, Hdark by done.
    rewrite decide_True in Hlabel, Hobserved by congruence. done.
Qed.

Lemma display_state_of_setTheme_witness :
  ("" ≠ "dark" ∧
   iconOpacity (exec (setTheme "") page_loaded) = Some "1" ∧
   iconDarkOpacity (exec (setTheme "") page_loaded) = Some "0.5" ∧
   ariaLabel (exec (setTheme "";; microtaskCheckpoint) page_loaded)
   = Some "Switch to dark mode") ∧
  (iconOpacity (exec (setTheme "dark") page_loaded) = Some "0.5" ∧
   iconDarkOpacity (exec (setTheme "dark") page_loaded) = Some "1" ∧
   ariaLabel (exec (setTheme "dark";; microtaskCheckpoint) page_loaded)
   = Some "Switch to light mode").
Proof.
  split.
  - split; [discriminate|].
    destruct (proj1 (display_state_of_setTheme "" page_loaded)) as (Hl & Hd & _ & Ha);
      [discriminate|].
    split; [exact Hl|]. split; [exact Hd | apply Ha; reflexivity].
  - destruct (proj2 (display_state_of_setTheme "dark" page_loaded)) as (Hl & Hd & _ & Ha);
      [reflexivity|].
    split; [exact Hl|]. split; [exact Hd | apply Ha; reflexivity].
Defined.

(* --------------------------------------------------------------------- *)
(*  The listeners                                                         *)
(* --------------------------------------------------------------------- *)

Lemma runTask_exec (t : Task) (p : Page) :
  exec (runTask t) p = exec microtaskCheckpoint (exec (listener t) p).
Proof. reflexivity. Qed.

Lemma onSchemeChange_exec (matches : bool) (p : Page) :
  exec (onSchemeChange matches) p =
  if truthy (persistedTheme p) then p
  else exec (setTheme (if matches then "dark" else "light")) p.
Proof.
  unfold onSchemeChange, exec, mbind, Script_bind, localStorage_getItem, persistedTheme. cbn.
  destruct (truthy (localStorage p !! "theme")); reflexivity.
Qed.

Lemma onVisibilityChange_exec (p : Page) :
  exec onVisibilityChange p =
  if hidden p then p
  else if truthy (persistedTheme p) && bool_decide (persistedTheme p ≠ appliedTheme p)
       then exec (setTheme (asString (persistedTheme p))) p
       else p.
Proof.
  unfold onVisibilityChange, exec, mbind, Script_bind, document_hidden, localStorage_getItem,
    getCurrentTheme, htmlElement_getAttribute, persistedTheme, appliedTheme. cbn.
  destruct (hidden p); [reflexivity|]. cbn.
  destruct (truthy (localStorage p !! "theme") && _); reflexivity.
Qed.

Lemma init_exec (p : Page) :
  exec init p =
  exec (body_setStyle "visibility" "visible") (exec updateAriaLabel (exec loadTheme p)).
Proof. reflexivity. Qed.

Lemma init_converged (p : Page) : converged (exec init p).
Proof.
  rewrite init_exec.
  destruct (loadTheme_converged p) as (theme & Happlied & Hsaved).
  exists theme. split; [exact Happlied | exact Hsaved].
Qed.

Lemma init_observing (p : Page) : observing (exec init p) = observing p.
Proof. rewrite init_exec. apply loadTheme_observing. Qed.

(** C5: a change of the system preference is ignored once the slot holds a
    non-empty value: the listener leaves the whole page as it is, so the
    attribute after the notification is the attribute before it. The
    reported theme is applied exactly when the slot is absent or holds the
    empty string. *)
Theorem scheme_change_suppressed (matches : bool) (p : Page) :
  (∀ s, persistedTheme p = Some s → s ≠ "" →
     appliedTheme (exec (runTask (SchemeChange matches)) p) = appliedTheme p ∧
     exec (onSchemeChange matches) p = p) ∧
  (persistedTheme p = None ∨ persistedTheme p = Some "" →
     appliedTheme (exec (runTask (SchemeChange matches)) p)
     = Some (if matches then "dark" else "light")).
Proof.
  rewrite runTask_exec, microtaskCheckpoint_applied.
  change (exec (listener (SchemeChange matches)) p)
    with (exec (onSchemeChange matches) (with_prefersDark matches p)).
  rewrite !onSchemeChange_exec.
  change (persistedTheme (with_prefersDark matches p)) with (persistedTheme p).
  split.
  - intros s Hsaved Hs. rewrite Hsaved, (truthy_Some s Hs). done.
  - intros Hempty. apply truthy_false in Hempty. rewrite Hempty. apply setTheme_applied.
Qed.

Lemma scheme_change_suppressed_witness :
  (persistedTheme page_loaded = Some "light" ∧ "light" ≠ "" ∧
   appliedTheme (exec (runTask (SchemeChange true)) page_loaded) = appliedTheme page_loaded) ∧
  (persistedTheme (cleared page_loaded) = None ∧
   appliedTheme (exec (runTask (SchemeChange true)) (cleared page_loaded)) = Some "dark").
Proof.
  split.
  - split; [reflexivity|]. split; [discriminate|].
    apply (proj1 (scheme_change_suppressed true page_loaded) "light");
      [reflexivity | discriminate].
  - split; [reflexivity|].
    apply (proj2 (scheme_change_suppressed true (cleared page_loaded))).
    left. reflexivity.
Defined.



(* --------------------------------------------------------------------- *)
(*  Invariants of a session                                               *)
(* --------------------------------------------------------------------- *)

Lemma storesUntouched_refl (p : Page) : storesUntouched p p.
Proof. by split. Qed.

Lemma storesUntouched_trans (p q r : Page) :
  storesUntouched p q → storesUntouched q r → storesUntouched p r.
Proof. intros [? ?] [? ?]. split; congruence. Qed.

Lemma converged_untouched (p q : Page) : storesUntouched p q → converged p → converged q.
Proof. intros [Ha Hs] (theme & ? & ?). exists theme. rewrite Ha, Hs. done. Qed.

(** A listener either calls setTheme, and then attribute and slot agree, or
    writes neither of them. *)
Lemma listener_stores (t : Task) (p : Page) :
  storesUntouched p (exec (listener t) p) ∨ converged (exec (listener t) p).
Proof.
  destruct t as [| |key|matches|nowHidden|]; cbn [listener].
  - unfold exec. destruct (initOnDOMContentLoaded p).
    + right. apply init_converged.
    + left. apply storesUntouched_refl.
  - right. apply toggleTheme_converged.
  - unfold onKeydown. destruct (_ || _).
    + right. apply toggleTheme_converged.
    + left. apply storesUntouched_refl.
  - change (exec _ p) with (exec (onSchemeChange matches) (with_prefersDark matches p)).
    rewrite onSchemeChange_exec. destruct (truthy _).
    + left. by split.
    + right. apply setTheme_converged.
  - change (exec _ p) with (exec onVisibilityChange (with_hidden nowHidden p)).
    rewrite onVisibilityChange_exec. destruct (hidden _); [left; by split|].
    destruct (_ && _).
    + right. apply setTheme_converged.
    + left. by split.
  - left. unfold exec, onTimeout. destruct (timeouts p); by split.
Qed.

Lemma runTask_stores (t : Task) (p : Page) :
  storesUntouched p (exec (runTask t) p) ∨ converged (exec (runTask t) p).
Proof.
  rewrite runTask_exec. destruct (listener_stores t p) as [Hsame | Hconv].
  - left. eapply storesUntouched_trans; [exact Hsame | apply microtaskCheckpoint_stores].
  - right. eapply converged_untouched; [apply microtaskCheckpoint_stores | exact Hconv].
Qed.

Lemma runTask_converged (t : Task) (p : Page) :
  converged p → converged (exec (runTask t) p).
Proof.
  intros Hconv. destruct (runTask_stores t p) as [Hsame | ?]; [|done].
  by eapply converged_untouched.
Qed.

Lemma runTasks_converged (ts : list Task) : ∀ p,
  converged p → converged (exec (runTasks ts) p).
Proof.
  induction ts as [|t ts IH]; intros p Hconv; [exact Hconv|].
  change (exec (runTasks (t :: ts)) p) with (exec (runTasks ts) (exec (runTask t) p)).
  apply IH, runTask_converged, Hconv.
Qed.

(** C8: convergence. From any page, init and toggleTheme leave attribute and
    slot holding the same value; every task of the page (initial
    resolution, click, key, system preference change, visibility change,
    timer) either writes neither of the two or leaves them holding the same
    value, because setTheme is the only writer of both; hence after init
    and any further sequence of tasks the two agree. *)
Theorem convergence_invariant (p : Page) :
  converged (exec init p) ∧
  converged (exec toggleTheme p) ∧
  (∀ t, storesUntouched p (exec (runTask t) p) ∨ converged (exec (runTask t) p)) ∧
  (∀ ts, converged (exec (runTasks ts) (exec init p))).
Proof.
  split; [apply init_converged|]. split; [apply toggleTheme_converged|].
  split; [intros t; apply runTask_stores|].
  intros ts. apply runTasks_converged, init_converged.
Qed.

(** Outside the page's own tasks the two can differ: the store rewritten
    from another tab is not the attribute until the page becomes visible
    again. *)
Example drift_from_outside :
  appliedTheme page_drifted = Some "dark" ∧ persistedTheme page_drifted = Some "light".
Proof. vm_compute. done. Qed.

Lemma listener_observing (t : Task) (p : Page) :
  observing (exec (listener t) p) = observing p.
Proof.
  destruct t as [| |key|matches|nowHidden|]; cbn [listener].
  - unfold exec. destruct (initOnDOMContentLoaded p); [|reflexivity].
    change (init ?q).2 with (exec init q). rewrite init_observing. reflexivity.
  - apply toggleTheme_observing.
  - unfold onKeydown. destruct (_ || _); [apply toggleTheme_observing | reflexivity].
  - change (exec _ p) with (exec (onSchemeChange matches) (with_prefersDark matches p)).
    rewrite onSchemeChange_exec. destruct (truthy _); [reflexivity|].
    rewrite setTheme_observing. reflexivity.
  - change (exec _ p) with (exec onVisibilityChange (with_hidden nowHidden p)).
    rewrite onVisibilityChange_exec. destruct (hidden _); [reflexivity|].
    destruct (_ && _); [rewrite setTheme_observing|]; reflexivity.
  - unfold exec, onTimeout. destruct (timeouts p); reflexivity.
Qed.

Lemma scriptTask_settled (p : Page) : settled (exec scriptTask p).
Proof.
  unfold scriptTask. rewrite seq_exec. split.
  - rewrite microtaskCheckpoint_observing. reflexivity.
  - apply microtaskCheckpoint_records.
Qed.

Lemma runTask_settled (t : Task) (p : Page) :
  observing p = true → settled (exec (runTask t) p).
Proof.
  intros Hobs. rewrite runTask_exec. split.
  - by rewrite microtaskCheckpoint_observing, listener_observing.
  - apply microtaskCheckpoint_records.
Qed.

(** Every page of a session starts its next task with the observer
    registered and nothing waiting for delivery. *)
Lemma reachable_settled (p : Page) : reachable p → settled p.
Proof.
  induction 1 as [p0 Hobs Hrec | t p _ [Hobs _] | store p _ IH].
  - apply scriptTask_settled.
  - by apply runTask_settled.
  - exact IH.
Qed.

Lemma page_loaded_reachable : reachable page_loaded.
Proof. apply reach_task, reach_script; reflexivity. Qed.

Lemma page_drifted_reachable : reachable page_drifted.
Proof. apply reach_storage, reach_task, page_loaded_reachable. Qed.

(** The scenario of a fresh session on a system that prefers dark. *)
Example fresh_dark_session :
  let p := exec (runTask DOMContentLoaded)
             (exec scriptTask (with_prefersDark true document0)) in
  appliedTheme p = Some "dark" ∧ persistedTheme p = Some "dark" ∧
  iconDarkOpacity p = Some "1" ∧ iconOpacity p = Some "0.5" ∧
  ariaLabel p = Some "Switch to light mode" ∧ dispatched p = [Some "dark"].
Proof. vm_compute. done. Qed.

(** The scenario of a click on the light page. *)
Example click_from_light :
  let p := exec (runTask Click) page_loaded in
  appliedTheme page_loaded = Some "light" ∧
  appliedTheme p = Some "dark" ∧ persistedTheme p = Some "dark" ∧
  dispatched p = dispatched page_loaded ++ [Some "dark"].
Proof. vm_compute. done. Qed.

(** The accessors read the attribute and change nothing. *)
Lemma accessors_pure (p : Page) :
  exec getCurrentTheme p = p ∧ eval getCurrentTheme p = appliedTheme p ∧
  exec isDarkMode p = p ∧
  eval isDarkMode p = bool_decide (appliedTheme p = Some "dark").
Proof. repeat split. Qed.

(* ===================================================================== *)
(*  Further properties of the listeners and of whole sessions             *)
(* ===================================================================== *)

(* --------------------------------------------------------------------- *)
(*  One call of setTheme per listener                                     *)
(* --------------------------------------------------------------------- *)

Lemma setTheme_called theme p : calledSetTheme theme p (exec (setTheme theme) p).
Proof.
  unfold calledSetTheme.
  rewrite setTheme_applied, setTheme_persisted, setTheme_iconOpacity,
    setTheme_iconDarkOpacity, setTheme_observing, setTheme_dispatched.
  repeat split. by rewrite setTheme_exec.
Qed.

Lemma themeUntouched_refl p : themeUntouched p p.
Proof. by repeat split. Qed.

(** A listener leaves everything of the theme alone, or it shows one call of
    setTheme, made with "light", with "dark" or with the non-empty string
    found in the slot. *)
Lemma listener_shape t p :
  themeUntouched p (exec (listener t) p) ∨
  ∃ theme, (theme = "light" ∨ theme = "dark" ∨ (persistedTheme p = Some theme ∧ theme ≠ "")) ∧
           calledSetTheme theme p (exec (listener t) p).
Proof.
  destruct t as [| |key|matches|nowHidden|]; cbn [listener].
  - unfold exec. destruct (initOnDOMContentLoaded p); [|left; apply themeUntouched_refl].
    right. change (init ?q).2 with (exec init q). rewrite init_exec, loadTheme_exec.
    change (persistedTheme (with_initOnDOMContentLoaded false p)) with (persistedTheme p).
    change (prefersDark (with_initOnDOMContentLoaded false p)) with (prefersDark p).
    destruct (truthy (persistedTheme p)) eqn:Htruthy.
    + apply truthy_true in Htruthy as (s & Hs & Hne). rewrite Hs. cbn [asString default].
      exists s. split; [right; right; done|].
      apply (setTheme_called s (with_initOnDOMContentLoaded false p)).
    + eexists. split; [|apply (setTheme_called _ (with_initOnDOMContentLoaded false p))].
      destruct (prefersDark p); auto.
  - right. rewrite toggleTheme_exec. eexists. split; [|apply (setTheme_called _ p)].
    destruct (decide _); auto.
  - unfold onKeydown. destruct (_ || _); [|left; apply themeUntouched_refl].
    right. rewrite toggleTheme_exec. eexists. split; [|apply (setTheme_called _ p)].
    destruct (decide _); auto.
  - change (exec _ p) with (exec (onSchemeChange matches) (with_prefersDark matches p)).
    rewrite onSchemeChange_exec. destruct (truthy _); [left; by repeat split|].
    right. eexists. split; [|apply (setTheme_called _ (with_prefersDark matches p))].
    destruct matches; auto.
  - change (exec _ p) with (exec onVisibilityChange (with_hidden nowHidden p)).
    rewrite onVisibilityChange_exec. destruct (hidden _); [left; by repeat split|].
    change (persistedTheme (with_hidden nowHidden p)) with (persistedTheme p).
    destruct (truthy (persistedTheme p)) eqn:Htruthy; cbn [andb]; [|left; by repeat split].
    destruct (bool_decide _); [|left; by repeat split].
    apply truthy_true in Htruthy as (s & Hs & Hne). rewrite Hs. cbn [asString default].
    right. exists s. split; [right; right; done|].
    apply (setTheme_called s (with_hidden nowHidden p)).
  - left. unfold exec, onTimeout. destruct (timeouts p); by repeat split.
Qed.

(* --------------------------------------------------------------------- *)
(*  More on the checkpoint                                                *)
(* --------------------------------------------------------------------- *)

Lemma microtaskCheckpoint_iconOpacity p :
  iconOpacity (exec microtaskCheckpoint p) = iconOpacity p.
Proof.
  rewrite microtaskCheckpoint_exec, callback_exec. destruct (notifications _); reflexivity.
Qed.

Lemma microtaskCheckpoint_iconDarkOpacity p :
  iconDarkOpacity (exec microtaskCheckpoint p) = iconDarkOpacity p.
Proof.
  rewrite microtaskCheckpoint_exec, callback_exec. destruct (notifications _); reflexivity.
Qed.

Lemma microtaskCheckpoint_ariaLabel p :
  ariaLabel (exec microtaskCheckpoint p) =
  match notifications (records p) with
  | O => ariaLabel p
  | S _ => Some (labelFor (appliedTheme p))
  end.
Proof.
  rewrite microtaskCheckpoint_exec, callback_exec.
  destruct (notifications _); [reflexivity|].
  unfold ariaLabel, getAttribute, setAttribute. cbn. apply lookup_insert_eq.
Qed.

Lemma microtaskCheckpoint_idem p :
  exec microtaskCheckpoint (exec microtaskCheckpoint p) = exec microtaskCheckpoint p.
Proof. apply microtaskCheckpoint_settled, microtaskCheckpoint_records. Qed.

(** X2: toggleTheme flips what isDarkMode answers, from every page, also
    one whose attribute is absent or no theme name. *)
Theorem toggleTheme_flips_isDarkMode (p : Page) :
  eval isDarkMode (exec toggleTheme p) = negb (eval isDarkMode p).
Proof.
  change (eval isDarkMode ?q) with (bool_decide (appliedTheme q = Some "dark")).
  rewrite toggleTheme_applied.
  destruct (decide (appliedTheme p = Some "dark")) as [Hd | Hd].
  - rewrite (bool_decide_eq_true_2 _ Hd). by rewrite bool_decide_eq_false_2.
  - rewrite (bool_decide_eq_false_2 _ Hd). by rewrite bool_decide_eq_true_2.
Qed.

(** X3: the last call wins. Two calls of setTheme in a row leave the page
    that the second call alone leaves, record queue apart; on an observed
    page the queue holds one record more than after the second call alone,
    on a page with no observer both queues are the old one. *)
Theorem setTheme_overwrites (a b : string) (p : Page) :
  let both := exec (setTheme a;; setTheme b) p in
  let one := exec (setTheme b) p in
  with_records [] both = with_records [] one ∧
  records both = (if observing p then records one ++ ["data-theme"] else records one) ∧
  records one = (if observing p then records p ++ ["data-theme"] else records p).
Proof.
  cbn zeta. rewrite seq_exec, (setTheme_exec b (exec _ _)), !setTheme_exec.
  unfold with_records, setStyle, setAttribute. cbn.
  rewrite !insert_insert_eq. by destruct (observing p).
Qed.

(* --------------------------------------------------------------------- *)
(*  Invariants over runs of tasks                                         *)
(* --------------------------------------------------------------------- *)

Lemma runTasks_nil p : exec (runTasks []) p = p.
Proof. reflexivity. Qed.

Lemma runTasks_cons t ts p :
  exec (runTasks (t :: ts)) p = exec (runTasks ts) (exec (runTask t) p).
Proof. reflexivity. Qed.

Lemma runTasks_app ts1 : ∀ ts2 p,
  exec (runTasks (ts1 ++ ts2)) p = exec (runTasks ts2) (exec (runTasks ts1) p).
Proof.
  induction ts1 as [|t ts1 IH]; intros ts2 p; [reflexivity|].
  cbn [app]. rewrite !runTasks_cons. apply IH.
Qed.

Lemma runTask_truthy t p :
  truthy (persistedTheme p) = true → truthy (persistedTheme (exec (runTask t) p)) = true.
Proof.
  intros Htruthy. rewrite runTask_exec, microtaskCheckpoint_persisted.
  destruct (listener_shape t p) as [Hsame | (theme & Hwhich & Hcalled)].
  - destruct Hsame as (_ & -> & _). exact Htruthy.
  - destruct Hcalled as (_ & -> & _).
    destruct Hwhich as [-> | [-> | [_ Hne]]]; [done | done | by apply truthy_Some].
Qed.

Lemma runTasks_truthy ts : ∀ p,
  truthy (persistedTheme p) = true → truthy (persistedTheme (exec (runTasks ts) p)) = true.
Proof.
  induction ts as [|t ts IH]; intros p Htruthy; [exact Htruthy|].
  rewrite runTasks_cons. apply IH, runTask_truthy, Htruthy.
Qed.

Lemma init_truthy p : truthy (persistedTheme (exec init p)) = true.
Proof.
  rewrite init_exec.
  change (persistedTheme (exec _ (exec _ ?q))) with (persistedTheme q).
  rewrite loadTheme_exec. destruct (truthy (persistedTheme p)) eqn:Htruthy.
  - apply truthy_true in Htruthy as (s & -> & Hne). cbn [asString default].
    rewrite setTheme_persisted. by apply truthy_Some.
  - rewrite setTheme_persisted. by destruct (prefersDark p).
Qed.

(** X4: init always leaves a non-empty slot and no task of the page empties
    it, so after init and any run of tasks the listener for changes of the
    system preference leaves the page as it is: the attribute no longer
    follows the system. *)
Theorem scheme_listener_dead_after_init (p : Page) (ts : list Task) (matches : bool) :
  let q := exec (runTasks ts) (exec init p) in
  exec (onSchemeChange matches) q = q ∧
  appliedTheme (exec (runTask (SchemeChange matches)) q) = appliedTheme q.
Proof.
  intros q.
  assert (Htruthy : truthy (persistedTheme q) = true)
    by apply runTasks_truthy, init_truthy.
  split.
  - rewrite onSchemeChange_exec. by rewrite Htruthy.
  - rewrite runTask_exec, microtaskCheckpoint_applied.
    change (exec (listener (SchemeChange matches)) q)
      with (exec (onSchemeChange matches) (with_prefersDark matches q)).
    rewrite onSchemeChange_exec.
    change (persistedTheme (with_prefersDark matches q)) with (persistedTheme q).
    by rewrite Htruthy.
Qed.

Lemma called_iconsConsistent theme p q : calledSetTheme theme p q → iconsConsistent q.
Proof.
  intros (Ha & _ & Hl & Hd & _). unfold iconsConsistent. rewrite Ha, Hl, Hd.
  destruct (decide (theme = "dark")) as [->|Hne].
  - rewrite !decide_True by done. by split.
  - rewrite !decide_False by congruence. by split.
Qed.

Lemma runTask_iconsConsistent t p :
  iconsConsistent p → iconsConsistent (exec (runTask t) p).
Proof.
  intros Hcons. rewrite runTask_exec. unfold iconsConsistent.
  rewrite microtaskCheckpoint_applied, microtaskCheckpoint_iconOpacity,
    microtaskCheckpoint_iconDarkOpacity.
  destruct (listener_shape t p) as [Hsame | (theme & _ & Hcalled)].
  - destruct Hsame as (-> & _ & -> & -> & _). exact Hcons.
  - exact (called_iconsConsistent _ _ _ Hcalled).
Qed.

Lemma init_iconsConsistent p : iconsConsistent (exec init p).
Proof.
  rewrite init_exec.
  change (iconsConsistent (exec loadTheme p)).
  rewrite loadTheme_exec. destruct (truthy _); eapply called_iconsConsistent, setTheme_called.
Qed.

(** X5: after init and any run of tasks the opacities of the two icons match
    the attribute: "0.5" and "1" when it is "dark", "1" and "0.5" else. *)
Theorem icons_follow_theme (p : Page) (ts : list Task) :
  iconsConsistent (exec (runTasks ts) (exec init p)).
Proof.
  generalize (exec init p), (init_iconsConsistent p). 
  induction ts as [|t ts IH]; intros q Hq; [exact Hq|].
  rewrite runTasks_cons. apply IH, runTask_iconsConsistent, Hq.
Qed.

Lemma runTask_labelConsistent t p :
  observing p = true → labelConsistent p → labelConsistent (exec (runTask t) p).
Proof.
  intros Hobs Hcons. rewrite runTask_exec. unfold labelConsistent.
  rewrite microtaskCheckpoint_applied, microtaskCheckpoint_ariaLabel.
  destruct (listener_shape t p) as [Hsame | (theme & _ & Hcalled)].
  - destruct Hsame as (-> & _ & _ & _ & -> & _). destruct (notifications _); done.
  - destruct Hcalled as (_ & _ & _ & _ & _ & -> & _). rewrite Hobs, notifications_snoc. done.
Qed.

(** X6: on a page whose observer is registered, a label that names the
    theme a click would switch to keeps doing so through every run of
    tasks. *)
Theorem label_follows_theme (ts : list Task) : ∀ p,
  observing p = true → labelConsistent p → labelConsistent (exec (runTasks ts) p).
Proof.
  induction ts as [|t ts IH]; intros p Hobs Hcons; [exact Hcons|].
  rewrite runTasks_cons. apply IH.
  - by apply runTask_settled.
  - by apply runTask_labelConsistent.
Qed.

(** X7: after n+1 clicks the attribute is "dark" or "light" by the parity
    of the clicks and by whether it was "dark" before; any other former
    value counts as not dark. *)
Theorem clicks_parity (n : nat) : ∀ p,
  appliedTheme (exec (runTasks (replicate (S n) Click)) p) =
  Some (if xorb (bool_decide (appliedTheme p = Some "dark")) (Nat.even n)
        then "dark" else "light").
Proof.
  assert (Hone : ∀ p, appliedTheme (exec (runTask Click) p)
                 = Some (if decide (appliedTheme p = Some "dark") then "light" else "dark")).
  { intros p. rewrite runTask_exec, microtaskCheckpoint_applied. apply toggleTheme_applied. }
  induction n as [|n IH]; intros p.
  - cbn [replicate]. rewrite runTasks_cons, runTasks_nil.
    rewrite Hone. destruct (decide _) as [Hd|Hd].
    + by rewrite (bool_decide_eq_true_2 _ Hd).
    + by rewrite (bool_decide_eq_false_2 _ Hd).
  - change (replicate (S (S n)) Click) with (Click :: replicate (S n) Click).
    rewrite runTasks_cons, IH, Hone, Nat.even_succ, <- Nat.negb_even.
    destruct (decide (appliedTheme p = Some "dark")) as [Hd|Hd].
    + rewrite (bool_decide_eq_true_2 _ Hd), bool_decide_eq_false_2 by done.
      by destruct (Nat.even n).
    + rewrite (bool_decide_eq_false_2 _ Hd), bool_decide_eq_true_2 by done.
      by destruct (Nat.even n).
Qed.

Lemma runTask_wellThemed t p : wellThemed p → wellThemed (exec (runTask t) p).
Proof.
  intros [(T & Ha & Hs) Hev]. rewrite runTask_exec. unfold wellThemed.
  rewrite microtaskCheckpoint_applied, microtaskCheckpoint_persisted,
    microtaskCheckpoint_dispatched.
  destruct (listener_shape t p) as [Hsame | (theme & Hwhich & Hcalled)].
  - destruct Hsame as (Ha' & Hs' & _ & _ & _ & _ & _ & Hd'). rewrite Ha', Hs', Hd', Ha.
    split; [by exists T|].
    apply Forall_app. split; [done|]. apply Forall_replicate. by exists T.
  - destruct Hcalled as (Ha' & Hs' & _ & _ & _ & _ & Hd'). rewrite Ha', Hs', Hd'.
    assert (∃ T', theme = themeName T') as [T' ->].
    { destruct Hwhich as [-> | [-> | [Hp _]]]; [by exists Light | by exists Dark |].
      exists T. congruence. }
    split; [by exists T'|].
    apply Forall_app. split; [done|]. apply Forall_replicate. by exists T'.
Qed.

(** X8: once attribute and slot hold the name of one theme, every run of
    tasks keeps it so, and every themechange event it dispatches carries
    "light" or "dark". *)
Theorem session_stays_wellThemed (ts : list Task) : ∀ p,
  wellThemed p → wellThemed (exec (runTasks ts) p).
Proof.
  induction ts as [|t ts IH]; intros p Hp; [exact Hp|].
  rewrite runTasks_cons. apply IH, runTask_wellThemed, Hp.
Qed.

(* --------------------------------------------------------------------- *)
(*  Loading the page                                                      *)
(* --------------------------------------------------------------------- *)

Lemma loadTheme_initial p : exec loadTheme p = exec (setTheme (initialTheme p)) p.
Proof. rewrite loadTheme_exec. unfold initialTheme. by destruct (truthy _). Qed.

Lemma script_exec p :
  exec script p =
  with_observing true
    (exec (if decide (readyState p = "loading") then document_onDOMContentLoaded_init else init)
       (exec (themeToggle_setAttribute "aria-label" "Toggle dark mode")
          (exec (themeToggle_setAttribute "tabindex" "0") p))).
Proof.
  unfold script, exec, mbind, Script_bind, document_readyState. cbn.
  destruct (decide (readyState p = "loading")); reflexivity.
Qed.

Lemma domContentLoaded_exec p :
  exec (listener DOMContentLoaded) p =
  if initOnDOMContentLoaded p then exec init (with_initOnDOMContentLoaded false p) else p.
Proof. unfold exec. cbn [listener]. by destruct (initOnDOMContentLoaded p). Qed.

Lemma microtaskCheckpoint_body p : body (exec microtaskCheckpoint p) = body p.
Proof.
  rewrite microtaskCheckpoint_exec, callback_exec. destruct (notifications _); reflexivity.
Qed.

Lemma microtaskCheckpoint_flag p :
  initOnDOMContentLoaded (exec microtaskCheckpoint p) = initOnDOMContentLoaded p.
Proof.
  rewrite microtaskCheckpoint_exec, callback_exec. destruct (notifications _); reflexivity.
Qed.

Lemma microtaskCheckpoint_tabindex p :
  getAttribute "tabindex" (themeToggle (exec microtaskCheckpoint p))
  = getAttribute "tabindex" (themeToggle p).
Proof.
  rewrite microtaskCheckpoint_exec, callback_exec. destruct (notifications _); [reflexivity|].
  unfold getAttribute, setAttribute. cbn. by rewrite lookup_insert_ne.
Qed.

(** What init leaves, for a page that is observed or not. *)
Lemma init_called p : calledSetTheme (initialTheme p) p (exec init p).
Proof. rewrite init_exec, loadTheme_initial. apply (setTheme_called _ p). Qed.

Lemma init_ariaLabel p : labelConsistent (exec init p).
Proof.
  rewrite init_exec, updateAriaLabel_exec.
  unfold labelConsistent, ariaLabel, getAttribute, setAttribute. cbn. apply lookup_insert_eq.
Qed.

Lemma init_bodyVisibility p : bodyVisibility (exec init p) = Some "visible".
Proof. rewrite init_exec. unfold bodyVisibility, getStyle. cbn. apply lookup_insert_eq. Qed.

Lemma init_tabindex p :
  getAttribute "tabindex" (themeToggle (exec init p)) = getAttribute "tabindex" (themeToggle p).
Proof.
  rewrite init_exec, updateAriaLabel_exec. unfold getAttribute, setAttribute. cbn.
  rewrite lookup_insert_ne by done. by rewrite loadTheme_initial, setTheme_exec.
Qed.

(** X9: loading the page. On a document with no observer yet, the script
    followed by DOMContentLoaded leaves attribute and slot at the saved
    value if truthy, else at the system preference; icons and label match;
    the body is visible; the toggle is focusable; the observer is
    registered with nothing waiting. The initial themechange event is
    dispatched when the script ran while the document was loading, and not
    when it ran later. *)
Theorem page_load (p0 : Page) :
  observing p0 = false → records p0 = [] → initOnDOMContentLoaded p0 = false →
  let q := exec (scriptTask;; runTask DOMContentLoaded) p0 in
  appliedTheme q = Some (initialTheme p0) ∧
  persistedTheme q = Some (initialTheme p0) ∧
  labelConsistent q ∧ iconsConsistent q ∧
  bodyVisibility q = Some "visible" ∧
  getAttribute "tabindex" (themeToggle q) = Some "0" ∧
  observing q = true ∧ records q = [] ∧ initOnDOMContentLoaded q = false ∧
  dispatched q =
    dispatched p0 ++ (if decide (readyState p0 = "loading") then [Some (initialTheme p0)] else []).
Proof.
  intros Hobs Hrec Hdcl q. subst q.
  rewrite seq_exec. unfold scriptTask. rewrite seq_exec, script_exec.
  set (p1 := exec (themeToggle_setAttribute "aria-label" "Toggle dark mode")
               (exec (themeToggle_setAttribute "tabindex" "0") p0)).
  assert (Htab : getAttribute "tabindex" (themeToggle p1) = Some "0").
  { unfold getAttribute. cbn. rewrite lookup_insert_ne by done. apply lookup_insert_eq. }
  destruct (decide (readyState p0 = "loading")) as [Hload | Hload].
  - set (p2 := with_observing true (exec document_onDOMContentLoaded_init p1)).
    rewrite (microtaskCheckpoint_settled p2) by exact Hrec.
    rewrite runTask_exec, domContentLoaded_exec.
    change (initOnDOMContentLoaded p2) with true. cbv iota.
    set (p3 := with_initOnDOMContentLoaded false p2).
    pose proof (init_called p3) as (Ha & Hs & Hl & Hd & Ho & Hr & He).
    change (initialTheme p3) with (initialTheme p0) in *.
    change (observing p3) with true in *. cbv iota in Hr.
    change (records p3) with (records p0) in Hr. rewrite Hrec in Hr.
    change (dispatched p3) with (dispatched p0) in He.
    rewrite microtaskCheckpoint_applied, microtaskCheckpoint_persisted.
    unfold labelConsistent, iconsConsistent, bodyVisibility.
    rewrite microtaskCheckpoint_applied, microtaskCheckpoint_ariaLabel,
      microtaskCheckpoint_iconOpacity, microtaskCheckpoint_iconDarkOpacity,
      microtaskCheckpoint_body, microtaskCheckpoint_tabindex, microtaskCheckpoint_observing,
      microtaskCheckpoint_records, microtaskCheckpoint_flag, microtaskCheckpoint_dispatched.
    pose proof (called_iconsConsistent _ _ _ (init_called p3)) as Hicons.
    unfold iconsConsistent in Hicons.
    rewrite Ha in Hicons. rewrite Hr, He, Ha, Hs, Ho, init_tabindex.
    split; [done|]. split; [done|]. split; [done|].
    split; [exact Hicons|].
    split; [apply init_bodyVisibility|].
    split; [exact Htab|]. split; [reflexivity|]. split; [reflexivity|].
    split; [by rewrite init_exec, loadTheme_initial, setTheme_exec|].
    rewrite notifications_snoc. reflexivity.
  - set (p2 := with_observing true (exec init p1)).
    assert (Hrec2 : records p2 = []).
    { pose proof (init_called p1) as (_ & _ & _ & _ & _ & Hr & _).
      change (observing p1) with (observing p0) in Hr. rewrite Hobs in Hr.
      change (records p2) with (records (exec init p1)). rewrite Hr. exact Hrec. }
    rewrite (microtaskCheckpoint_settled p2) by exact Hrec2.
    rewrite runTask_exec, domContentLoaded_exec.
    assert (Hflag : initOnDOMContentLoaded p2 = false).
    { change (initOnDOMContentLoaded p2) with (initOnDOMContentLoaded (exec init p1)).
      rewrite init_exec, loadTheme_initial, setTheme_exec. exact Hdcl. }
    rewrite Hflag, (microtaskCheckpoint_settled p2) by exact Hrec2.
    pose proof (init_called p1) as (Ha & Hs & Hl & Hd & Ho & Hr & He).
    change (initialTheme p1) with (initialTheme p0) in *.
    split; [exact Ha|]. split; [exact Hs|].
    split; [exact (init_ariaLabel p1)|].
    split; [exact (called_iconsConsistent _ _ _ (init_called p1))|].
    split; [exact (init_bodyVisibility p1)|].
    split; [change (themeToggle p2) with (themeToggle (exec init p1));
            rewrite init_tabindex; exact Htab|].
    split; [reflexivity|]. split; [exact Hrec2|]. split; [exact Hflag|].
    change (dispatched p2) with (dispatched (exec init p1)). rewrite He.
    symmetry. apply app_nil_r.
Qed.

(* --------------------------------------------------------------------- *)
(*  Click statistics                                                      *)
(* --------------------------------------------------------------------- *)

Lemma clickLog_cons now times s :
  clickLog (now :: times) s =
  let s1 := mkClickStats (toggleCount s + 1) now in
  (((toggleCount s + 1)%Z, (now - lastToggleTime s)%Z) :: (clickLog times s1).1,
   (clickLog times s1).2).
Proof.
  cbn [clickLog]. unfold onClickStats. cbn zeta.
  by destruct (clickLog times _).
Qed.

(** X10: the click statistics, for clicks at times Date.now() can return on
    a clock not set before 1970 and a counter that stays at or below 2^53
    (the range in which the doubles of the source are exact). The counter
    grows by the number of clicks, the logged counts run from the old
    counter plus one upwards, the last click time is the time of the last
    click, the logged intervals add up to the time from the old last click
    to the new one, and every logged number is a whole number that a double
    holds exactly. *)
Theorem clickLog_telescopes (times : list Z) : ∀ s,
  (0 ≤ toggleCount s)%Z →
  (toggleCount s + Z.of_nat (length times) ≤ 2 ^ 53)%Z →
  timeStamp (lastToggleTime s) →
  Forall timeStamp times →
  let lines := (clickLog times s).1 in
  let s' := (clickLog times s).2 in
  toggleCount s' = (toggleCount s + Z.of_nat (length times))%Z ∧
  lastToggleTime s' = default (lastToggleTime s) (last times) ∧
  lines.*1 = (λ k, toggleCount s + Z.of_nat k)%Z <$> seq 1 (length times) ∧
  sumZ lines.*2 = (lastToggleTime s' - lastToggleTime s)%Z ∧
  Forall (λ line, safeInteger line.1 ∧ safeInteger line.2) lines.
Proof.
  induction times as [|now times IH]; intros s Hcount Hmax Hlast Htimes; cbn zeta.
  - cbn. repeat split; try lia. constructor.
  - rewrite clickLog_cons. cbn zeta. cbn [fst snd].
    apply Forall_cons in Htimes as [Hnow Htimes].
    cbn [length] in Hmax.
    specialize (IH (mkClickStats (toggleCount s + 1) now)). cbn zeta in IH.
    cbn [toggleCount lastToggleTime] in IH.
    destruct IH as (Hc & Hl & Hnums & Hsum & Hsafe); [lia | lia | exact Hnow | exact Htimes |].
    split; [cbn [length]; lia|].
    split. { rewrite Hl, last_cons. by destruct (last times). }
    split.
    { cbn [length seq]. rewrite !fmap_cons, Hnums. cbn [fst]. f_equal.
      rewrite <- (fmap_S_seq 1), <- list_fmap_compose.
      apply list_fmap_ext. intros _ k _. cbn. lia. }
    split.
    { rewrite fmap_cons. cbn [snd]. unfold sumZ in *. cbn [foldr]. rewrite Hsum. lia. }
    apply Forall_cons. split; [|exact Hsafe]. cbn [fst snd].
    unfold safeInteger, timeStamp in *. lia.
Qed.

Lemma clickLog_telescopes_witness :
  timeStamp 1000 ∧ Forall timeStamp [1250; 1900; 4000]%Z ∧
  (clickLog [1250; 1900; 4000]%Z (mkClickStats 0 1000)).1
  = [(1, 250); (2, 650); (3, 2100)]%Z ∧
  sumZ (clickLog [1250; 1900; 4000]%Z (mkClickStats 0 1000)).1.*2 = (4000 - 1000)%Z.
Proof.
  assert (Hstamp : ∀ z, (0 ≤ z)%Z → (z ≤ 2 ^ 53)%Z → timeStamp z) by (intros; split; done).
  assert (H0 : timeStamp 1000) by (apply Hstamp; lia).
  assert (Hall : Forall timeStamp [1250; 1900; 4000]%Z)
    by (repeat apply Forall_cons_2; try apply Forall_nil_2; apply Hstamp; lia).
  split; [exact H0|]. split; [exact Hall|]. split; [reflexivity|].
  destruct (clickLog_telescopes [1250; 1900; 4000]%Z (mkClickStats 0 1000))
    as (_ & _ & _ & Hsum & _); [cbn; lia | cbn; lia | exact H0 | exact Hall |].
  exact Hsum.
Defined.

(** X11: the observer does not feed itself. The checkpoint leaves the root
    element and the store as they are, leaves no record behind, and a second
    checkpoint right after it does nothing. *)
Theorem checkpoint_no_feedback (p : Page) :
  htmlElement (exec microtaskCheckpoint p) = htmlElement p ∧
  localStorage (exec microtaskCheckpoint p) = localStorage p ∧
  records (exec microtaskCheckpoint p) = [] ∧
  exec microtaskCheckpoint (exec microtaskCheckpoint p) = exec microtaskCheckpoint p.
Proof.
  split; [|split; [|split]].
  - rewrite microtaskCheckpoint_exec, callback_exec. destruct (notifications _); reflexivity.
  - rewrite microtaskCheckpoint_exec, callback_exec. destruct (notifications _); reflexivity.
  - apply microtaskCheckpoint_records.
  - apply microtaskCheckpoint_idem.
Qed.

(* --------------------------------------------------------------------- *)
(*  The toggle animation                                                  *)
(* --------------------------------------------------------------------- *)

Lemma microtaskCheckpoint_timeouts p : timeouts (exec microtaskCheckpoint p) = timeouts p.
Proof.
  rewrite microtaskCheckpoint_exec, callback_exec. destruct (notifications _); reflexivity.
Qed.

Lemma microtaskCheckpoint_toggleTransform p :
  toggleTransform (exec microtaskCheckpoint p) = toggleTransform p.
Proof.
  rewrite microtaskCheckpoint_exec, callback_exec. destruct (notifications _); reflexivity.
Qed.

Lemma click_animation p :
  toggleTransform (exec (runTask Click) p) = Some "scale(0.95)" ∧
  timeouts (exec (runTask Click) p) = S (timeouts p).
Proof.
  rewrite runTask_exec, microtaskCheckpoint_toggleTransform, microtaskCheckpoint_timeouts.
  change (exec (listener Click) p) with (exec toggleTheme p). rewrite toggleTheme_exec.
  split.
  - unfold toggleTransform, getStyle. cbn. apply lookup_insert_eq.
  - change (timeouts (exec animateToggle ?q)) with (S (timeouts q)).
    by rewrite setTheme_exec.
Qed.

Lemma timer_animation n p :
  timeouts p = S n →
  toggleTransform (exec (runTask TimerFired) p) = Some "scale(1)" ∧
  timeouts (exec (runTask TimerFired) p) = n ∧
  appliedTheme (exec (runTask TimerFired) p) = appliedTheme p.
Proof.
  intros Hn.
  rewrite runTask_exec, microtaskCheckpoint_toggleTransform, microtaskCheckpoint_timeouts,
    microtaskCheckpoint_applied.
  change (exec (listener TimerFired) p) with (exec onTimeout p).
  unfold exec, onTimeout. rewrite Hn. cbn.
  split; [|done]. unfold toggleTransform, getStyle. cbn. apply lookup_insert_eq.
Qed.

Lemma timers_drain n : ∀ p,
  timeouts p = S n →
  let r := exec (runTasks (replicate (S n) TimerFired)) p in
  toggleTransform r = Some "scale(1)" ∧ timeouts r = 0 ∧ appliedTheme r = appliedTheme p.
Proof.
  induction n as [|n IH]; intros p Hn; cbn zeta.
  - cbn [replicate]. rewrite runTasks_cons, runTasks_nil.
    apply timer_animation, Hn.
  - change (replicate (S (S n)) TimerFired) with (TimerFired :: replicate (S n) TimerFired).
    rewrite runTasks_cons.
    destruct (timer_animation (S n) p Hn) as (_ & Hleft & Happlied).
    destruct (IH _ Hleft) as (Ht & Hz & Ha). rewrite Ht, Hz, Ha, Happlied. done.
Qed.

(** X12: the animation. A click scales the toggle to 0.95 and adds one
    pending timer; once all pending timers have fired the toggle is back at
    scale 1, none is pending and the theme is untouched. Timers are not
    cancelled: after a second click, the first timer to fire puts the
    toggle back at scale 1 while the timer of the second click is still
    pending. *)
Theorem toggle_animation (p : Page) :
  let q := exec (runTask Click) p in
  toggleTransform q = Some "scale(0.95)" ∧
  timeouts q = S (timeouts p) ∧
  (let r := exec (runTasks (replicate (timeouts q) TimerFired)) q in
   toggleTransform r = Some "scale(1)" ∧ timeouts r = 0 ∧ appliedTheme r = appliedTheme q) ∧
  (let o := exec (runTasks [Click; TimerFired]) q in
   toggleTransform o = Some "scale(1)" ∧ timeouts o = S (timeouts p)).
Proof.
  cbn zeta. destruct (click_animation p) as [Hscale Hpending].
  split; [exact Hscale|]. split; [exact Hpending|]. split.
  - rewrite Hpending. exact (timers_drain (timeouts p) _ Hpending).
  - rewrite !runTasks_cons, runTasks_nil.
    destruct (click_animation (exec (runTask Click) p)) as [_ Hpending2].
    rewrite Hpending in Hpending2.
    destruct (timer_animation _ _ Hpending2) as (Ht & Hn & _).
    split; [exact Ht | exact Hn].
Qed.

(** X13: visibility changes. Becoming hidden changes nothing of the page.
    Becoming visible with a non-empty slot always ends with the attribute
    and the slot at the value of the slot. *)
Theorem visibility_hidden_or_reconciled (p : Page) :
  (records p = [] → exec (runTask (VisibilityChange true)) p = with_hidden true p) ∧
  (∀ s, persistedTheme p = Some s → s ≠ "" →
     let q := exec (runTask (VisibilityChange false)) p in
     appliedTheme q = Some s ∧ persistedTheme q = Some s).
Proof.
  split.
  - intros Hrec. rewrite runTask_exec.
    change (exec (listener (VisibilityChange true)) p)
      with (exec onVisibilityChange (with_hidden true p)).
    rewrite onVisibilityChange_exec. change (hidden (with_hidden true p)) with true. cbv iota.
    apply microtaskCheckpoint_settled. exact Hrec.
  - intros s Hsaved Hne q. subst q.
    rewrite runTask_exec, microtaskCheckpoint_applied, microtaskCheckpoint_persisted.
    change (exec (listener (VisibilityChange false)) p)
      with (exec onVisibilityChange (with_hidden false p)).
    rewrite onVisibilityChange_exec. change (hidden (with_hidden false p)) with false.
    cbv iota.
    change (persistedTheme (with_hidden false p)) with (persistedTheme p).
    change (appliedTheme (with_hidden false p)) with (appliedTheme p).
    rewrite Hsaved, (truthy_Some s Hne). cbn [andb asString default].
    destruct (bool_decide (Some s ≠ appliedTheme p)) eqn:Hdiff.
    + rewrite setTheme_applied, setTheme_persisted. done.
    + apply bool_decide_eq_false_1 in Hdiff.
      split; [|exact Hsaved].
      change (appliedTheme (with_hidden false p)) with (appliedTheme p).
      destruct (decide (Some s = appliedTheme p)) as [<-|Hne']; [done|]. by destruct Hdiff.
Qed.


Lemma label_follows_theme_witness :
  observing page_loaded = true ∧ labelConsistent page_loaded ∧
  labelConsistent (exec (runTasks [Click; Keydown " "; Click]) page_loaded).
Proof.
  split; [reflexivity|]. split; [reflexivity|].
  apply (label_follows_theme [Click; Keydown " "; Click] page_loaded); reflexivity.
Defined.

Lemma page_loaded_wellThemed : wellThemed page_loaded.
Proof.
  split.
  - exists Light. split; vm_compute; reflexivity.
  - assert (dispatched page_loaded = [Some "light"]) as -> by (vm_compute; reflexivity).
    apply Forall_cons. split; [|apply Forall_nil_2]. exists Light. reflexivity.
Defined.

Lemma session_stays_wellThemed_witness :
  wellThemed page_loaded ∧
  wellThemed (exec (runTasks [Click; SchemeChange true; VisibilityChange false]) page_loaded).
Proof.
  split; [exact page_loaded_wellThemed|].
  apply (session_stays_wellThemed [Click; SchemeChange true; VisibilityChange false]
           page_loaded page_loaded_wellThemed).
Defined.

Lemma page_load_witness :
  observing page_complete = false ∧ records page_complete = [] ∧
  initOnDOMContentLoaded page_complete = false ∧
  appliedTheme (exec (scriptTask;; runTask DOMContentLoaded) page_complete) = Some "light" ∧
  dispatched (exec (scriptTask;; runTask DOMContentLoaded) page_complete) = [] ∧
  dispatched (exec (scriptTask;; runTask DOMContentLoaded) document0) = [Some "light"].
Proof.
  split; [reflexivity|]. split; [reflexivity|]. split; [reflexivity|].
  destruct (page_load page_complete eq_refl eq_refl eq_refl)
    as (Ha & _ & _ & _ & _ & _ & _ & _ & _ & He).
  destruct (page_load document0 eq_refl eq_refl eq_refl)
    as (_ & _ & _ & _ & _ & _ & _ & _ & _ & He0).
  split; [exact Ha|]. split; [exact He | exact He0].
Defined.

Lemma visibility_hidden_or_reconciled_witness :
  (records page_loaded = [] ∧
   exec (runTask (VisibilityChange true)) page_loaded = with_hidden true page_loaded) ∧
  (persistedTheme page_drifted = Some "light" ∧ "light" ≠ "" ∧
   appliedTheme (exec (runTask (VisibilityChange false)) page_drifted) = Some "light").
Proof.
  split.
  - split; [reflexivity|].
    apply (proj1 (visibility_hidden_or_reconciled page_loaded)). reflexivity.
  - split; [reflexivity|]. split; [discriminate|].
    apply (proj2 (visibility_hidden_or_reconciled page_drifted) "light");
      [reflexivity | discriminate].
Defined.

Lemma reachable_settled_witness :
  reachable page_drifted ∧ settled page_drifted.
Proof.
  split; [exact page_drifted_reachable|].
  exact (reachable_settled page_drifted page_drifted_reachable).
Defined.
